(** * support-portal: the backend proxy (server.js) as a shallow embedding

    The proxy is an Express application: a CORS gate, a JSON body parser and
    its route registrations, whose handlers make one or two calls to the CRM
    connection [conn] (jsforce) or to the language model [model] and shape a
    JSON response.  Handlers are embedded as computations in a small
    state-and-exception monad: the state records the upstream calls made, the
    lines written with [console.error] and the response sent; a thrown value
    that no [catch] handles is the rejection of the handler's promise. *)

From Stdlib Require Import String Ascii List Bool Arith Lia.
Import ListNotations.
Local Open Scope list_scope.
Local Open Scope string_scope.
Set Warnings "-register-all".

(** ** JavaScript values *)

(** The values that flow through the handlers: request fields, upstream
    results and response bodies.  Numbers are left out: no handler computes
    with one, and the only numeric literals of the source (status codes, the
    tree depth) are modelled as [nat]. *)
Inductive jsval : Type :=
| VUndef
| VNull
| VBool (b : bool)
| VStr (s : string)
| VArr (items : list jsval)
| VObj (fields : list (string * jsval)).

(** [!v] is [negb (truthy v)]. *)
Definition truthy (v : jsval) : bool :=
  match v with
  | VUndef | VNull => false
  | VBool b => b
  | VStr s => negb (s =? "")
  | VArr _ | VObj _ => true
  end.

(** [a || b] *)
Definition js_or (a b : jsval) : jsval := if truthy a then a else b.

(** Does the object literal have an own property [k]? *)
Definition has_own (k : string) (fields : list (string * jsval)) : bool :=
  existsb (fun kv => fst kv =? k) fields.

(** ToString, as a template literal applies it to a substitution; [None]
    stands for the TypeError it throws.  The values are JSON data: an
    object converts with Object.prototype.toString unless it has an own
    [toString] property, which in JSON data is never callable, so that no
    primitive value is found ("Cannot convert object to primitive value");
    an array converts with [join], its [null] and [undefined] elements as
    empty strings. *)
Fixpoint ToString (v : jsval) : option string :=
  match v with
  | VUndef => Some "undefined"
  | VNull => Some "null"
  | VBool true => Some "true"
  | VBool false => Some "false"
  | VStr s => Some s
  | VArr items =>
      let fix go (l : list jsval) : option string :=
        match l with
        | [] => Some ""
        | x :: r =>
            let sx := match x with
                      | VUndef | VNull => Some ""
                      | _ => ToString x
                      end in
            match r with
            | [] => sx
            | _ :: _ =>
                match sx, go r with
                | Some a, Some b => Some (a ++ "," ++ b)
                | _, _ => None
                end
            end
        end in
      go items
  | VObj fields => if has_own "toString" fields then None else Some "[object Object]"
  end.

(** The string of a conversion that gives one (the empty string stands in
    where [ToString] throws: code that can meet such a value converts it
    with [ToString], through [to_string_m] and [eval_template] below). *)
Definition to_string (v : jsval) : string :=
  match ToString v with
  | Some s => s
  | None => ""
  end.
Arguments to_string v : simpl nomatch.

(** Template literals: literal chunks and [${...}] substitutions. *)
Inductive tpart : Type :=
| TLit (s : string)
| TSub (v : jsval).

Fixpoint template (parts : list tpart) : string :=
  match parts with
  | [] => ""
  | TLit s :: r => s ++ template r
  | TSub v :: r => to_string v ++ template r
  end.

(** [Array.prototype.join] on an array of strings. *)
Fixpoint join (sep : string) (l : list string) : string :=
  match l with
  | [] => ""
  | [x] => x
  | x :: r => x ++ sep ++ join sep r
  end.

(** [String.prototype.includes] *)
Fixpoint includes (needle hay : string) : bool :=
  prefix needle hay ||
  match hay with
  | EmptyString => false
  | String _ t => includes needle t
  end.

Definition nl : string := String (ascii_of_nat 10) EmptyString.
Definition dquote : string := String (ascii_of_nat 34) EmptyString.

(** Own-property lookup in an object literal; the first binding wins. *)
Fixpoint lookup (k : string) (fields : list (string * jsval)) : jsval :=
  match fields with
  | [] => VUndef
  | (k', v) :: r => if k' =? k then v else lookup k r
  end.

(** ** Errors, upstream calls, responses *)

Record js_error : Type := mkError { err_name : string; err_message : string }.

Definition TypeError (msg : string) : js_error := mkError "TypeError" msg.
Definition ReferenceError (x : string) : js_error :=
  mkError "ReferenceError" (x ++ " is not defined").

(** A settled promise. *)
Inductive settled : Type :=
| Resolved (v : jsval)
| Rejected (e : js_error).

(** The calls a handler can make to its two collaborators. *)
Inductive call : Type :=
| CrmGetDataCategoryGroups (groups : list string)
| CrmGetCategoryTree (name : jsval) (depth : nat)
| CrmQuery (soql : string)
| CrmSearch (sosl : string)
| CrmCreate (sobject : string) (record : jsval)
| CrmFetchArticle (urlName : string)
| LlmGenerateContent (prompt : string).

Definition is_llm_call (c : call) : bool :=
  match c with LlmGenerateContent _ => true | _ => false end.

Inductive payload : Type :=
| Json (v : jsval)
| Text (s : string).

Record response : Type := mkResponse { status : nat; body : payload }.

(** The collaborators, as the handlers see them: [conn.accessToken] and one
    outcome per call.  [generateContent] stands for the three steps
    [model.generateContent(prompt)], [await result.response] and
    [response.text()]; a resolved value is the completion text. *)
Record upstream : Type := mkUpstream {
  accessToken : jsval;
  getDataCategoryGroups : list string -> settled;
  getCategoryTree : jsval -> nat -> settled;
  query : string -> settled;
  search : string -> settled;
  create : string -> jsval -> settled;
  fetchArticle : string -> settled;
  generateContent : string -> settled
}.

(** ** The handler monad *)

Record world : Type := mkWorld {
  calls : list call;
  logs : list (list jsval);
  sent : option response
}.

Definition init : world := mkWorld [] [] None.

Inductive result (A : Type) : Type :=
| Ok (a : A)
| Throw (e : js_error).
Arguments Ok {A} a.
Arguments Throw {A} e.

Definition M (A : Type) : Type := world -> result A * world.

Definition ret {A} (a : A) : M A := fun w => (Ok a, w).
Definition throw {A} (e : js_error) : M A := fun w => (Throw e, w).
Definition bind {A B} (m : M A) (k : A -> M B) : M B :=
  fun w => match m w with
           | (Ok a, w') => k a w'
           | (Throw e, w') => (Throw e, w')
           end.

Declare Scope js_scope.
Delimit Scope js_scope with js.
Notation "x <- c ;; k" := (bind c (fun x => k))
  (at level 100, c at next level, right associativity) : js_scope.
Notation "c ;; k" := (bind c (fun _ => k))
  (at level 100, right associativity) : js_scope.
Local Open Scope js_scope.

(** [try { body } catch (err) { handler }] *)
Definition try_catch {A} (body : M A) (handler : js_error -> M A) : M A :=
  fun w => match body w with
           | (Ok a, w') => (Ok a, w')
           | (Throw e, w') => handler e w'
           end.

(** [await p] for a promise that settles as [p]. *)
Definition await (p : settled) : M jsval :=
  match p with
  | Resolved v => ret v
  | Rejected e => throw e
  end.

(** An upstream call: it is recorded, then awaited. *)
Definition upstream_call (c : call) (p : settled) : M jsval :=
  fun w => await p (mkWorld (calls w ++ [c])%list (logs w) (sent w)).

(** [console.error(...args)] *)
Definition console_error (args : list jsval) : M unit :=
  fun w => (Ok tt, mkWorld (calls w) (logs w ++ [args])%list (sent w)).

(** [res.status(code).json(v)]; [res.json(v)] is [res_json 200 v]. *)
Definition res_json (code : nat) (v : jsval) : M unit :=
  fun w => (Ok tt, mkWorld (calls w) (logs w) (Some (mkResponse code (Json v)))).

(** [res.status(code).send(text)] *)
Definition res_send (code : nat) (s : string) : M unit :=
  fun w => (Ok tt, mkWorld (calls w) (logs w) (Some (mkResponse code (Text s)))).

(** [v.k]: reading a property of [undefined] or [null] throws; the property
    names the handlers read ([records], [searchRecords], [name], [Title],
    [Summary]) are own properties of objects only. *)
Definition get_prop (v : jsval) (k : string) : M jsval :=
  match v with
  | VUndef => throw (TypeError ("Cannot read properties of undefined (reading '" ++ k ++ "')"))
  | VNull => throw (TypeError ("Cannot read properties of null (reading '" ++ k ++ "')"))
  | VObj fields => ret (lookup k fields)
  | _ => ret VUndef
  end.

(** [v[0]] *)
Definition get_first (v : jsval) : M jsval :=
  match v with
  | VUndef => throw (TypeError "Cannot read properties of undefined (reading '0')")
  | VNull => throw (TypeError "Cannot read properties of null (reading '0')")
  | VArr items => ret (hd VUndef items)
  | VStr (String c _) => ret (VStr (String c EmptyString))
  | VObj fields => ret (lookup "0" fields)
  | _ => ret VUndef
  end.

(** Reading an identifier: one that no enclosing scope declares throws a
    ReferenceError. *)
Definition read_ident (scope : list string) (x : string) (bound : jsval) : M jsval :=
  if existsb (String.eqb x) scope then ret bound else throw (ReferenceError x).

(** ToString inside a handler: the TypeError is thrown. *)
Definition to_string_m (v : jsval) : M string :=
  match ToString v with
  | Some s => ret s
  | None => throw (TypeError "Cannot convert object to primitive value")
  end.

(** Evaluating a template literal whose substitutions may fail to convert:
    they are converted from left to right. *)
Fixpoint eval_template (parts : list tpart) : M string :=
  match parts with
  | [] => ret ""
  | TLit s :: r => rest <- eval_template r ;; ret (s ++ rest)
  | TSub v :: r => sv <- to_string_m v ;; rest <- eval_template r ;; ret (sv ++ rest)
  end.

(** Running a handler from the initial state. *)
Definition run {A} (m : M A) : result A * world := m init.

(** ** Requests *)

(** The request methods the routes of the listing can serve.  Preflight
    OPTIONS requests, which the cors middleware answers itself, and the
    methods no route is registered for are left out. *)
Inductive method : Type := GET | POST | HEAD.

(** A request after Express has parsed it: [req_path] is the path split at
    its slashes (a trailing slash leaves a last, empty segment), [req.params]
    holds the path segments bound by the route pattern (always strings),
    [req.body] the fields of the JSON object that [express.json()] parsed,
    [req_origin] the Origin header ([None] when the header is absent). *)
Record request : Type := mkRequest {
  req_method : method;
  req_path : list string;
  req_origin : option string;
  req_params : list (string * string);
  req_body : list (string * jsval)
}.

(** [req.params.k] *)
Fixpoint param_lookup (k : string) (ps : list (string * string)) : jsval :=
  match ps with
  | [] => VUndef
  | (k', v) :: r => if k' =? k then VStr v else param_lookup k r
  end.

Definition param (req : request) (k : string) : jsval :=
  param_lookup k (req_params req).

(** [req.body.k] *)
Definition field (req : request) (k : string) : jsval :=
  lookup k (req_body req).

Definition error_body (msg : string) : jsval := VObj [("error", VStr msg)].

(** ** The CORS gate (server.js, lines 14-35) *)

Definition allowedOrigins : list string := ["http://localhost:3000"].

Definition cors_message : string :=
  "The CORS policy for this site does not allow access from the specified Origin.".

(** [allowedOrigins.indexOf(origin)]; [None] stands for [-1]. *)
Fixpoint indexOf (x : string) (l : list string) : option nat :=
  match l with
  | [] => None
  | y :: r => if y =? x then Some 0
              else match indexOf x r with
                   | Some i => Some (S i)
                   | None => None
                   end
  end.

(** The [origin] option of the cors middleware: what it passes to
    [callback], as (error, allow). *)
Definition cors_origin (origin : option string) : option js_error * bool :=
  match origin with
  | None => (None, true)
  | Some o =>
      if o =? "" then (None, true)
      else if includes "vercel.app" o then (None, true)
      else match indexOf o allowedOrigins with
           | None => (Some (mkError "Error" cors_message), false)
           | Some _ => (None, true)
           end
  end.

Definition origin_accepted (origin : option string) : bool :=
  snd (cors_origin origin).

(** ** Route handlers (server.js, lines 64-215) *)

(** GET /api/healthcheck *)
Definition healthcheck (up : upstream) (req : request) : M unit :=
  res_send 200 "OK".

(** GET /api/knowledge/categories *)
Definition categories (up : upstream) (req : request) : M unit :=
  try_catch
    (dataCategoryGroups <-
       upstream_call (CrmGetDataCategoryGroups ["Knowledge"])
                     (getDataCategoryGroups up ["Knowledge"]) ;;
     categoryGroup <- get_first dataCategoryGroups ;;
     name <- get_prop categoryGroup "name" ;;
     tree <- upstream_call (CrmGetCategoryTree name 4) (getCategoryTree up name 4) ;;
     res_json 200 tree)
    (fun err =>
       console_error [VStr "Error fetching knowledge categories:"; VStr (err_message err)] ;;
       res_json 500 (error_body "Failed to fetch knowledge categories")).

(** The SOQL of GET /api/knowledge/articles/:categoryName *)
Definition articles_query (categoryName : jsval) : string :=
  template
    [ TLit (nl ++ "      SELECT Id, Title, UrlName, Summary " ++ nl ++
            "      FROM Knowledge__kav " ++ nl ++
            "      WHERE PublishStatus='Online' AND Language='en_US' " ++ nl ++
            "      AND DataCategorySelections.Knowledge.at('");
      TSub categoryName;
      TLit ("')" ++ nl ++
            "      ORDER BY LastPublishedDate DESC" ++ nl ++
            "      LIMIT 20" ++ nl ++ "    ") ].

(** GET /api/knowledge/articles/:categoryName.  The listing breaks off
    inside this handler's [try] block, after [res.json(result.records)]: its
    [catch] block is not in the source and is taken as the parameter
    [on_error]. *)
Definition articles (on_error : js_error -> M unit)
    (up : upstream) (req : request) : M unit :=
  let categoryName := param req "categoryName" in
  try_catch
    (let query_ := articles_query categoryName in
     result <- upstream_call (CrmQuery query_) (query up query_) ;;
     records <- get_prop result "records" ;;
     res_json 200 records)
    on_error.

(** The SOQL of the first GET /api/cases/:email handler *)
Definition cases_v1_soql (email : jsval) : string :=
  template
    [ TLit (nl ++ "      SELECT Id, CaseNumber, Subject, Description, Status, CreatedDate " ++ nl ++
            "      FROM Case " ++ nl ++
            "      WHERE Contact.Email = '");
      TSub email;
      TLit ("' AND Status != 'Closed'" ++ nl ++
            "      ORDER BY CreatedDate DESC" ++ nl ++ "    ") ].

(** The identifiers declared around the [catch] block of the first
    GET /api/cases/:email handler: the catch parameter, the handler's own
    parameters and constants, the enclosing function's (the handler is
    written inside the unfinished articles handler) and the module's. *)
Definition cases_v1_catch_scope : list string :=
  [ "err"; "req"; "res"; "email"; "soql";
    "categoryName"; "query"; "result";
    "express"; "jsforce"; "cors"; "GoogleGenerativeAI"; "app";
    "allowedOrigins"; "conn"; "genAI"; "model";
    "console"; "process"; "require"; "module" ].

(** GET /api/cases/:email, first registration *)
Definition cases_v1 (up : upstream) (req : request) : M unit :=
  if negb (truthy (accessToken up)) then
    res_json 401 (error_body "Salesforce not connected")
  else
    let email := param req "email" in
    let soql := cases_v1_soql email in
    try_catch
      (result <- upstream_call (CrmQuery soql) (query up soql) ;;
       records <- get_prop result "records" ;;
       res_json 200 records)
      (fun err =>
         urlName <- read_ident cases_v1_catch_scope "urlName" VUndef ;;
         console_error [VStr "Error fetching article:"; urlName; VStr (err_message err)] ;;
         urlName' <- read_ident cases_v1_catch_scope "urlName" VUndef ;;
         res_json 500 (error_body (template [TLit "Failed to fetch article "; TSub urlName']))).

(** The SOQL of the second GET /api/cases/:email handler *)
Definition cases_v2_soql (email : jsval) : string :=
  template
    [ TLit (nl ++ "      SELECT Id, CaseNumber, Subject, Status, CreatedDate, Description " ++ nl ++
            "      FROM Case " ++ nl ++
            "      WHERE ContactEmail = '");
      TSub email;
      TLit ("' AND IsClosed = false" ++ nl ++
            "      ORDER BY CreatedDate DESC" ++ nl ++ "    ") ].

(** GET /api/cases/:email, second registration *)
Definition cases_v2 (up : upstream) (req : request) : M unit :=
  let email := param req "email" in
  if negb (truthy email) then
    res_json 400 (error_body "Email parameter is required.")
  else
    try_catch
      (let query_ := cases_v2_soql email in
       result <- upstream_call (CrmQuery query_) (query up query_) ;;
       records <- get_prop result "records" ;;
       res_json 200 records)
      (fun err =>
         console_error [VStr "Error fetching cases for email:"; email; VStr (err_message err)] ;;
         res_json 500 (error_body (template [TLit "Failed to fetch cases for email "; TSub email]))).

(** The record that POST /api/cases/:caseId/reply creates *)
Definition case_comment (caseId commentBody isPublic : jsval) : jsval :=
  VObj [ ("ParentId", caseId);
         ("CommentBody", commentBody);
         ("IsPublished", js_or isPublic (VBool false)) ].

(** POST /api/cases/:caseId/reply *)
Definition reply (up : upstream) (req : request) : M unit :=
  let caseId := param req "caseId" in
  let commentBody := field req "commentBody" in
  let isPublic := field req "isPublic" in
  if negb (truthy commentBody) then
    res_json 400 (error_body "commentBody is required.")
  else
    try_catch
      (let record := case_comment caseId commentBody isPublic in
       result <- upstream_call (CrmCreate "CaseComment" record)
                               (create up "CaseComment" record) ;;
       res_json 201 result)
      (fun err =>
         console_error [VStr "Error posting case comment:"; VStr (err_message err)] ;;
         res_json 500 (error_body "Failed to post reply")).

(** The template literal of the SOSL of POST /api/search *)
Definition search_sosl_parts (searchTerm : jsval) : list tpart :=
  [ TLit (nl ++ "          FIND {*");
    TSub searchTerm;
    TLit ("*} IN ALL FIELDS " ++ nl ++
          "          RETURNING Knowledge__kav(Id, Title, Summary, UrlName WHERE PublishStatus='Online' AND Language='en_US' LIMIT 10)" ++ nl ++
          "        ") ].

(** The SOSL of POST /api/search *)
Definition search_sosl (searchTerm : jsval) : string :=
  template (search_sosl_parts searchTerm).

(** [!articles || articles.length === 0] *)
Definition no_candidates (articles : jsval) : bool :=
  negb (truthy articles) ||
  match articles with
  | VArr [] => true
  | _ => false
  end.

(** The callback of [articles.map]: one article's share of the context. *)
Definition article_context (art : jsval) : M string :=
  title <- get_prop art "Title" ;;
  summary <- get_prop art "Summary" ;;
  ret (template [TLit "Title: "; TSub title; TLit (nl ++ "Summary: "); TSub summary]).

Fixpoint map_m {A B} (f : A -> M B) (l : list A) : M (list B) :=
  match l with
  | [] => ret []
  | x :: r => y <- f x ;; ys <- map_m f r ;; ret (y :: ys)
  end.

(** [articles.map(f)]: only an array has [map]. *)
Definition array_map (f : jsval -> M string) (v : jsval) : M (list string) :=
  match v with
  | VArr items => map_m f items
  | _ => throw (TypeError "articles.map is not a function")
  end.

Definition context_separator : string := nl ++ nl ++ "---" ++ nl ++ nl.

(** The prompt sent to the language model *)
Definition search_prompt (context : string) (searchTerm : jsval) : string :=
  template
    [ TLit (nl ++ "            Based on the following knowledge base articles, please answer the user's question. " ++ nl ++
            "            Provide a concise, helpful answer and cite the titles of the articles you used." ++ nl ++
            "            If the articles don't contain the answer, say that you couldn't find an answer in the knowledge base." ++ nl ++
            nl ++
            "            ARTICLES:" ++ nl ++
            "            ---" ++ nl ++
            "            ");
      TSub (VStr context);
      TLit (nl ++ "            ---" ++ nl ++
            nl ++
            "            USER QUESTION: " ++ dquote);
      TSub searchTerm;
      TLit (dquote ++ nl ++
            nl ++
            "            ANSWER:" ++ nl ++
            "        ") ].

Definition no_articles_answer : string :=
  "I couldn't find any articles related to your search.".

(** POST /api/search.  [searchTerm] is whatever JSON value the client put in
    the body: building the SOSL converts it to a string, inside the [try],
    and that conversion can throw.  (The path parameters of the other
    handlers are strings, and the fields of CRM records are text or [null],
    for which it cannot; the prompt converts [searchTerm] a second time,
    after the first conversion has succeeded.) *)
Definition search_handler (up : upstream) (req : request) : M unit :=
  let searchTerm := field req "searchTerm" in
  if negb (truthy searchTerm) then
    res_json 400 (error_body "searchTerm is required.")
  else
    try_catch
      (soslQuery <- eval_template (search_sosl_parts searchTerm) ;;
       soslResult <- upstream_call (CrmSearch soslQuery) (search up soslQuery) ;;
       articles_ <- get_prop soslResult "searchRecords" ;;
       if no_candidates articles_ then
         res_json 200 (VObj [("answer", VStr no_articles_answer); ("sources", VArr [])])
       else
         parts <- array_map article_context articles_ ;;
         let context := join context_separator parts in
         let prompt := search_prompt context searchTerm in
         text <- upstream_call (LlmGenerateContent prompt) (generateContent up prompt) ;;
         res_json 200 (VObj [("answer", text); ("sources", articles_)]))
      (fun err =>
         console_error [VStr "Error in semantic search:"; VStr (err_message err)] ;;
         res_json 500 (error_body "Failed to perform search")).

(** Modelled from the spec: the wording of the 400 response of the article
    route (spec 7 asks for a human-readable reason and gives none; this one
    follows the sibling handlers of the source). *)
Definition urlName_required : string := "urlName is required.".

(** Modelled from the spec: the handler of GET /api/knowledge/article/:urlName,
    which the listing lacks (the frontend calls the route, and only the tail
    of a catch block naming [urlName] survives, inside the first cases
    handler).  Spec 7: the route requires the CRM session, so a missing
    session is answered 401 before the call is attempted (the check and its
    message are those of the first cases handler); a missing or empty
    required input is HTTP 400 with an [error] body; an upstream failure is
    HTTP 500 with a generic per-route message, the cause logged only.
    Spec 4.1: required input the path segment [urlName], validation
    non-empty, upstream call - fetch the single article by [urlName],
    success shape ArticleDetail.  The catch block is the surviving
    fragment (lines 117-120). *)
Definition article (up : upstream) (req : request) : M unit :=
  if negb (truthy (accessToken up)) then
    res_json 401 (error_body "Salesforce not connected")
  else
    let urlName := param req "urlName" in
    if negb (truthy urlName) then
      res_json 400 (error_body urlName_required)
    else
      try_catch
        (detail <- upstream_call (CrmFetchArticle (to_string urlName))
                                 (fetchArticle up (to_string urlName)) ;;
         res_json 200 detail)
        (fun err =>
           console_error [VStr "Error fetching article:"; urlName; VStr (err_message err)] ;;
           res_json 500 (error_body (template [TLit "Failed to fetch article "; TSub urlName]))).

(** ** Routing *)

Inductive seg : Type :=
| Lit (s : string)
| Param (name : string).

(** ASCII lower case: route literals are compared without regard to case
    (Express's default, [caseSensitive] off; characters outside ASCII never
    match an ASCII letter). *)
Definition lower (c : ascii) : ascii :=
  let n := nat_of_ascii c in
  if Nat.leb 65 n && Nat.leb n 90 then ascii_of_nat (n + 32)%nat else c.

Fixpoint lowercase (s : string) : string :=
  match s with
  | EmptyString => EmptyString
  | String c r => String (lower c) (lowercase r)
  end.

Definition literal_matches (lit segment : string) : bool :=
  lowercase lit =? lowercase segment.

(** One trailing slash is ignored (Express's default, [strict] off). *)
Fixpoint strip_trailing_slash (path : list string) : list string :=
  match path with
  | [] => []
  | x :: r =>
      match r with
      | [] => if x =? "" then [] else [x]
      | _ :: _ => x :: strip_trailing_slash r
      end
  end.

Fixpoint match_segments (pat : list seg) (path : list string)
  : option (list (string * string)) :=
  match pat, path with
  | [], [] => Some []
  | Lit s :: pat', x :: path' =>
      if literal_matches s x then match_segments pat' path' else None
  | Param name :: pat', x :: path' =>
      if x =? "" then None
      else match match_segments pat' path' with
           | Some ps => Some ((name, x) :: ps)
           | None => None
           end
  | _, _ => None
  end.

(** Express's path matching for the patterns used here: a literal segment
    matches itself in any case, [:name] binds one non-empty segment, and
    the path may end with one more slash. *)
Definition match_pattern (pat : list seg) (path : list string)
  : option (list (string * string)) :=
  match_segments pat (strip_trailing_slash path).

(** Does a route registered for method [registered] serve a request of
    method [requested]?  A route registered with [app.get] also serves
    HEAD requests. *)
Definition handles_method (registered requested : method) : bool :=
  match registered, requested with
  | GET, GET | GET, HEAD | POST, POST | HEAD, HEAD => true
  | _, _ => false
  end.

Definition handler : Type := upstream -> request -> M unit.

Record route : Type := mkRoute {
  route_method : method;
  route_pattern : list seg;
  route_handler : handler
}.

Definition cases_pattern : list seg := [Lit "api"; Lit "cases"; Param "email"].

(** The registrations of the listing, in order, followed by the one of the
    article route, which the listing lacks (its pattern overlaps no other,
    so its place does not matter).  (The registrations after line 95 are
    written inside the unfinished articles handler; they are taken as the
    module-level registrations they were before the text was merged.) *)
Definition routes (on_error : js_error -> M unit) : list route :=
  [ mkRoute GET [Lit "api"; Lit "healthcheck"] healthcheck;
    mkRoute GET [Lit "api"; Lit "knowledge"; Lit "categories"] categories;
    mkRoute GET [Lit "api"; Lit "knowledge"; Lit "articles"; Param "categoryName"]
            (articles on_error);
    mkRoute GET cases_pattern cases_v1;
    mkRoute GET cases_pattern cases_v2;
    mkRoute POST [Lit "api"; Lit "cases"; Param "caseId"; Lit "reply"] reply;
    mkRoute POST [Lit "api"; Lit "search"] search_handler;
    mkRoute GET [Lit "api"; Lit "knowledge"; Lit "article"; Param "urlName"] article ].

Definition with_params (req : request) (ps : list (string * string)) : request :=
  mkRequest (req_method req) (req_path req) (req_origin req) ps (req_body req).

(** The first registration that matches handles the request (no handler
    calls [next]). *)
Fixpoint dispatch (rs : list route) (req : request) : option (handler * request) :=
  match rs with
  | [] => None
  | r :: rest =>
      if handles_method (route_method r) (req_method req) then
        match match_pattern (route_pattern r) (req_path req) with
        | Some ps => Some (route_handler r, with_params req ps)
        | None => dispatch rest req
        end
      else dispatch rest req
  end.

(** What the application does with a request: the cors middleware comes
    first and passes its error to [next], so that no later middleware or
    route runs; otherwise the matching handler runs from the initial state. *)
Inductive app_outcome : Type :=
| CorsRejection (e : js_error)
| NoRoute
| Handled (r : result unit) (w : world).

Definition app_handle (on_error : js_error -> M unit)
    (up : upstream) (req : request) : app_outcome :=
  match cors_origin (req_origin req) with
  | (Some e, _) => CorsRejection e
  | (None, _) =>
      match dispatch (routes on_error) req with
      | None => NoRoute
      | Some (h, req') => let (r, w) := run (h up req') in Handled r w
      end
  end.

(** The upstream calls a request caused. *)
Definition effects (o : app_outcome) : list call :=
  match o with
  | Handled _ w => calls w
  | _ => []
  end.

Definition handler_ran (o : app_outcome) : bool :=
  match o with
  | Handled _ _ => true
  | _ => false
  end.

(** ** Collaborators used in the examples *)

Definition upstream_error : js_error := mkError "Error" "socket hang up".

(** A CRM session that never logged in and a language model that is down:
    every call is rejected. *)
Definition disconnected : upstream :=
  mkUpstream VUndef
    (fun _ => Rejected upstream_error) (fun _ _ => Rejected upstream_error)
    (fun _ => Rejected upstream_error) (fun _ => Rejected upstream_error)
    (fun _ _ => Rejected upstream_error) (fun _ => Rejected upstream_error)
    (fun _ => Rejected upstream_error).

(** A logged-in session whose calls are all rejected. *)
Definition failing : upstream :=
  mkUpstream (VStr "00Dxx!token")
    (fun _ => Rejected upstream_error) (fun _ _ => Rejected upstream_error)
    (fun _ => Rejected upstream_error) (fun _ => Rejected upstream_error)
    (fun _ _ => Rejected upstream_error) (fun _ => Rejected upstream_error)
    (fun _ => Rejected upstream_error).

Definition reset_password : list (string * jsval) :=
  [("Id", VStr "ka01"); ("Title", VStr "Reset Password");
   ("Summary", VStr "How to reset it"); ("UrlName", VStr "reset-password")].

Definition billing_faq : list (string * jsval) :=
  [("Id", VStr "ka02"); ("Title", VStr "Billing FAQ");
   ("Summary", VStr "Invoices and payments"); ("UrlName", VStr "billing-faq")].

(** A logged-in session: queries find no record, a search finds the two
    articles above unless the term is xyzzy, a created record gets an id,
    the language model answers with a fixed text. *)
Definition healthy : upstream :=
  mkUpstream (VStr "00Dxx!token")
    (fun _ => Resolved (VArr [VObj [("name", VStr "Knowledge")]]))
    (fun _ _ => Resolved (VObj [("topCategories", VArr [])]))
    (fun _ => Resolved (VObj [("records", VArr [])]))
    (fun sosl =>
       if includes "xyzzy" sosl
       then Resolved (VObj [("searchRecords", VArr [])])
       else Resolved (VObj [("searchRecords", VArr [VObj reset_password; VObj billing_faq])]))
    (fun _ _ => Resolved (VObj [("id", VStr "00a01"); ("success", VBool true)]))
    (fun _ => Resolved (VObj [("Title", VStr "Reset Password"); ("Body", VStr "<p>Steps</p>")]))
    (fun _ => Resolved (VStr "See Reset Password.")).

Definition no_groups : upstream :=
  mkUpstream (VStr "00Dxx!token")
    (fun _ => Resolved (VArr [])) (getCategoryTree healthy)
    (query healthy) (search healthy) (create healthy) (fetchArticle healthy)
    (generateContent healthy).

Definition null_candidate : upstream :=
  mkUpstream (VStr "00Dxx!token")
    (getDataCategoryGroups healthy) (getCategoryTree healthy) (query healthy)
    (fun _ => Resolved (VObj [("searchRecords", VArr [VObj reset_password; VNull])]))
    (create healthy) (fetchArticle healthy) (generateContent healthy).

Definition no_records : upstream :=
  mkUpstream (VStr "00Dxx!token")
    (getDataCategoryGroups healthy) (getCategoryTree healthy) (query healthy)
    (fun _ => Resolved (VObj []))
    (create healthy) (fetchArticle healthy) (generateContent healthy).


(** No session token, yet the CRM answers (the token is the only thing
    the handlers can test). *)
Definition tokenless : upstream :=
  mkUpstream VUndef
    (getDataCategoryGroups healthy) (getCategoryTree healthy) (query healthy)
    (search healthy) (create healthy) (fetchArticle healthy)
    (generateContent healthy).

Definition get_request (path : list string) (params : list (string * string)) : request :=
  mkRequest GET path None params [].

Definition post_request (path : list string) (params : list (string * string))
    (fields : list (string * jsval)) : request :=
  mkRequest POST path None params fields.

(** * The presentation client (frontend/src/App.jsx)

    The view-models of the three tabs: the state each component keeps with
    [useState] and the asynchronous handlers that update it.  A handler is
    embedded as a function from the state before it to the state after it
    has settled, together with the HTTP requests it issued and the error
    that left it, if any.  [axios] is the HTTP client: a request either
    resolves with the response data or is rejected (a network failure or a
    status outside 2xx).  [console.error] is not recorded.  The values its
    template literals convert to strings are fields of the records the
    proxy relays (names, labels, ids: text). *)

Definition API_BASE_URL : string := "/api".
Definition LOGGED_IN_USER_EMAIL : string := "lharris@invoca.com".

Record http_request : Type := mkHttp {
  http_method : method;
  http_url : string;
  http_body : jsval
}.

Inductive http_result : Type :=
| HttpOk (data : jsval)
| HttpError.

Definition axios : Type := http_request -> http_result.

Record ui (S : Type) : Type := mkUi {
  ui_state : S;
  ui_requests : list http_request;
  ui_thrown : option js_error
}.
Arguments mkUi {S} _ _ _.
Arguments ui_state {S} _.
Arguments ui_requests {S} _.
Arguments ui_thrown {S} _.

(** [Array.isArray(v)] *)
Definition isArray (v : jsval) : bool :=
  match v with VArr _ => true | _ => false end.

(** [v.k] for a [v] that is neither [undefined] nor [null]. *)
Definition own (v : jsval) (k : string) : jsval :=
  match v with VObj fields => lookup k fields | _ => VUndef end.

Definition nullish (v : jsval) : bool :=
  match v with VUndef | VNull => true | _ => false end.

(** ** SupportTab *)

Record support_tab : Type := mkSupport {
  st_categories : jsval;
  st_articles : jsval;
  st_selectedArticle : jsval;
  st_isLoading : bool;
  st_error : string;
  st_selectedCategory : jsval
}.

Definition support_init : support_tab :=
  mkSupport (VObj [("topCategories", VArr [])]) (VArr []) VNull true ""
            (VStr "All Articles").

Definition categories_error : string :=
  "Could not load article categories. The backend API might be misconfigured or returning an error.".

(** [fetchCategories], run by the effect on mount *)
Definition fetchCategories (ax : axios) (st : support_tab) : ui support_tab :=
  let req := mkHttp GET (template [TSub (VStr API_BASE_URL); TLit "/knowledge/categories"]) VUndef in
  match ax req with
  | HttpOk data =>
      if truthy data && isArray (own data "topCategories") then
        mkUi (mkSupport data (st_articles st) (st_selectedArticle st) false ""
                        (st_selectedCategory st)) [req] None
      else
        mkUi (mkSupport (st_categories st) (st_articles st) (st_selectedArticle st) false
                        categories_error (st_selectedCategory st)) [req] None
  | HttpError =>
      mkUi (mkSupport (st_categories st) (st_articles st) (st_selectedArticle st) false
                      categories_error (st_selectedCategory st)) [req] None
  end.

(** [handleCategorySelect(category)] *)
Definition handleCategorySelect (ax : axios) (category : jsval) (st : support_tab)
  : ui support_tab :=
  if nullish category then
    (* [category.label] throws after the first three setters have run *)
    mkUi (mkSupport (st_categories st) (VArr []) VNull true (st_error st)
                    (st_selectedCategory st)) []
         (Some (TypeError ("Cannot read properties of " ++ to_string category ++
                           " (reading 'label')")))
  else
    let label := own category "label" in
    let req := mkHttp GET
                 (template [TSub (VStr API_BASE_URL); TLit "/knowledge/articles/";
                            TSub (own category "name")]) VUndef in
    match ax req with
    | HttpOk data =>
        mkUi (mkSupport (st_categories st) (if isArray data then data else VArr [])
                        VNull false (st_error st) label) [req] None
    | HttpError =>
        mkUi (mkSupport (st_categories st) (VArr []) VNull false
                        (template [TLit "Could not load articles for "; TSub label; TLit "."])
                        label) [req] None
    end.

(** [handleArticleSelect(articleUrlName)] *)
Definition handleArticleSelect (ax : axios) (articleUrlName : jsval) (st : support_tab)
  : ui support_tab :=
  let req := mkHttp GET
               (template [TSub (VStr API_BASE_URL); TLit "/knowledge/article/";
                          TSub articleUrlName]) VUndef in
  match ax req with
  | HttpOk data =>
      mkUi (mkSupport (st_categories st) (st_articles st) data false (st_error st)
                      (st_selectedCategory st)) [req] None
  | HttpError =>
      mkUi (mkSupport (st_categories st) (st_articles st) VNull false
                      "Could not load article." (st_selectedCategory st)) [req] None
  end.

(** What can happen to a mounted SupportTab. *)
Inductive support_action : Type :=
| FetchCategories
| SelectCategory (category : jsval)
| SelectArticle (articleUrlName : jsval).

Definition support_step (st : support_tab) (step : axios * support_action) : support_tab :=
  match step with
  | (ax, FetchCategories) => ui_state (fetchCategories ax st)
  | (ax, SelectCategory c) => ui_state (handleCategorySelect ax c st)
  | (ax, SelectArticle u) => ui_state (handleArticleSelect ax u st)
  end.

Definition support_run (steps : list (axios * support_action)) : support_tab :=
  fold_left support_step steps support_init.

(** The shape the rendering relies on: [categories.topCategories] and
    [articles] are arrays. *)
Definition support_shape (st : support_tab) : Prop :=
  (exists fields items,
     st_categories st = VObj fields /\ lookup "topCategories" fields = VArr items) /\
  (exists items, st_articles st = VArr items).

(** ** SearchTab *)

Record search_tab : Type := mkSearch {
  sr_searchTerm : string;
  sr_results : jsval;
  sr_isLoading : bool;
  sr_error : string
}.

Definition search_error : string :=
  "An error occurred during the search. Please try again.".

(** [handleSearch]; [trim] is [String.prototype.trim]. *)
Definition handleSearch (trim : string -> string) (ax : axios) (st : search_tab)
  : ui search_tab :=
  if negb (truthy (VStr (trim (sr_searchTerm st)))) then mkUi st [] None
  else
    let req := mkHttp POST (template [TSub (VStr API_BASE_URL); TLit "/search"])
                      (VObj [("searchTerm", VStr (sr_searchTerm st))]) in
    match ax req with
    | HttpOk data => mkUi (mkSearch (sr_searchTerm st) data false "") [req] None
    | HttpError => mkUi (mkSearch (sr_searchTerm st) VNull false search_error) [req] None
    end.

(** ** CaseList and CaseItem *)

Record case_list : Type := mkCaseList {
  cl_cases : jsval;
  cl_isLoading : bool;
  cl_error : string
}.

Definition case_list_init : case_list := mkCaseList (VArr []) true "".

Definition email_required : string :=
  "A valid customer email is required to fetch cases. Please update the placeholder in App.jsx.".

(** [fetchCases], run by the effect on mount *)
Definition fetchCases (ax : axios) (st : case_list) : ui case_list :=
  if negb (includes "@" LOGGED_IN_USER_EMAIL) then
    mkUi (mkCaseList (cl_cases st) false email_required) [] None
  else
    let req := mkHttp GET
                 (template [TSub (VStr API_BASE_URL); TLit "/cases/";
                            TSub (VStr LOGGED_IN_USER_EMAIL)]) VUndef in
    match ax req with
    | HttpOk data =>
        mkUi (mkCaseList (if isArray data then data else VArr []) false (cl_error st))
             [req] None
    | HttpError =>
        mkUi (mkCaseList (cl_cases st) false "Could not load your open cases.") [req] None
    end.

Record case_item : Type := mkCaseItem {
  ci_showReply : bool;
  ci_replyText : string;
  ci_isReplying : bool
}.

(** The body [handleReply] posts. *)
Definition reply_body (replyText : string) : list (string * jsval) :=
  [("commentBody", VStr replyText); ("isPublic", VBool true)].

(** [handleReply] of the item showing [caseData] *)
Definition handleReply (trim : string -> string) (ax : axios) (caseData : jsval)
    (st : case_item) : ui case_item :=
  if negb (truthy (VStr (trim (ci_replyText st)))) then mkUi st [] None
  else if nullish caseData then
    (* [caseData.Id] throws inside the [try]; the [catch] logs it *)
    mkUi (mkCaseItem (ci_showReply st) (ci_replyText st) false) [] None
  else
    let req := mkHttp POST
                 (template [TSub (VStr API_BASE_URL); TLit "/cases/";
                            TSub (own caseData "Id"); TLit "/reply"])
                 (VObj (reply_body (ci_replyText st))) in
    match ax req with
    | HttpOk _ => mkUi (mkCaseItem false "" false) [req] None
    | HttpError => mkUi (mkCaseItem (ci_showReply st) (ci_replyText st) false) [req] None
    end.

(** ** Properties of handlers *)

(** The uniform failure envelope: a JSON object whose only field is
    [error], a string. *)
Definition is_error_envelope (r : response) : Prop :=
  exists msg, body r = Json (VObj [("error", VStr msg)]).

(** A handler run that ended by itself (nothing escaped) with a response
    that is a success, or an error envelope with a 4xx/5xx status. *)
Definition settles (out : result unit * world) : Prop :=
  fst out = Ok tt /\
  exists r, sent (snd out) = Some r /\
            (status r < 400 \/ (400 <= status r /\ is_error_envelope r)).

(** [h] answers 400 with a non-empty [error], before any upstream call,
    whenever the required value [input] is missing or empty. *)
Definition rejects_blank (h : handler) (input : request -> jsval) : Prop :=
  forall up req, truthy (input req) = false ->
    calls (snd (run (h up req))) = [] /\
    exists msg, msg <> "" /\
      sent (snd (run (h up req))) = Some (mkResponse 400 (Json (error_body msg))).

(** [h] answers 401 with an [error], before any upstream call, whenever the
    CRM session is unavailable. *)
Definition checks_session_first (h : handler) : Prop :=
  forall up req, truthy (accessToken up) = false ->
    calls (snd (run (h up req))) = [] /\
    exists msg,
      sent (snd (run (h up req))) = Some (mkResponse 401 (Json (error_body msg))).


(** The gate accepts exactly the allow-listed origins and the origins that
    match the deployment-preview pattern. *)
Definition accepts_only_listed_or_preview : Prop :=
  forall origin,
    origin_accepted origin = true <->
    exists o, origin = Some o /\
              (In o allowedOrigins \/ includes "vercel.app" o = true).


Ltac step_handler :=
  unfold run, bind, try_catch, upstream_call, await, ret, throw,
         res_json, res_send, console_error, read_ident, get_prop, init;
  simpl.

(** ** Strings *)

Lemma prefix_append (n b : string) : prefix n (n ++ b) = true.
Proof.
  induction n as [|c n IH]; simpl.
  - destruct b; reflexivity.
  - destruct (Ascii.ascii_dec c c) as [_|ne]; [exact IH | contradiction].
Qed.

Lemma prefix_append_right (n h s : string) :
  prefix n h = true -> prefix n (h ++ s) = true.
Proof.
  revert h; induction n as [|c n IH]; intros h H; simpl.
  - destruct (h ++ s); reflexivity.
  - destruct h as [|d h]; simpl in H; [discriminate|].
    simpl. destruct (Ascii.ascii_dec c d); [apply IH; exact H | discriminate].
Qed.

Lemma includes_prefix (n h : string) : prefix n h = true -> includes n h = true.
Proof. intros H. destruct h; simpl; simpl in H; rewrite H; reflexivity. Qed.

Lemma includes_append_left (n p h : string) :
  includes n h = true -> includes n (p ++ h) = true.
Proof.
  intros H. induction p as [|c p IH]; simpl; [exact H|].
  rewrite IH. apply orb_true_r.
Qed.

Lemma includes_append_right (n h s : string) :
  includes n h = true -> includes n (h ++ s) = true.
Proof.
  induction h as [|c h IH]; intros H.
  - simpl in H. rewrite orb_false_r in H.
    apply includes_prefix. apply (prefix_append_right n "" s H).
  - simpl in H. apply orb_true_iff in H. destruct H as [H|H].
    + apply includes_prefix. apply (prefix_append_right n (String c h) s H).
    + simpl. rewrite (IH H). apply orb_true_r.
Qed.

Lemma includes_middle (n a b : string) : includes n (a ++ n ++ b) = true.
Proof. apply includes_append_left, includes_prefix, prefix_append. Qed.

Lemma prefix_split (n h : string) :
  prefix n h = true -> exists b, h = n ++ b.
Proof.
  revert h; induction n as [|c n IH]; intros h H.
  - exists h; reflexivity.
  - destruct h as [|d h]; simpl in H; [discriminate|].
    destruct (Ascii.ascii_dec c d) as [->|]; [|discriminate].
    destruct (IH h H) as [b ->]. exists b; reflexivity.
Qed.

(** [includes] decides "is a substring of". *)
Lemma includes_spec (n h : string) :
  includes n h = true <-> exists a b, h = a ++ n ++ b.
Proof.
  split.
  - induction h as [|c h IH]; simpl; intros H.
    + rewrite orb_false_r in H. destruct (prefix_split n "" H) as [b Hb].
      exists "", b. exact Hb.
    + apply orb_true_iff in H. destruct H as [H|H].
      * destruct (prefix_split n (String c h) H) as [b Hb]. exists "", b. exact Hb.
      * destruct (IH H) as (a & b & ->). exists (String c a), b. reflexivity.
  - intros (a & b & ->). apply includes_middle.
Qed.

Lemma append_assoc (a b c : string) : (a ++ b) ++ c = a ++ (b ++ c).
Proof. induction a as [|x a IH]; simpl; [reflexivity | rewrite IH; reflexivity]. Qed.

Lemma append_empty_r (a : string) : a ++ "" = a.
Proof. induction a as [|x a IH]; simpl; [reflexivity | rewrite IH; reflexivity]. Qed.

Lemma truthy_string (s : string) : s <> "" -> truthy (VStr s) = true.
Proof.
  intros H. simpl. destruct (String.eqb_spec s ""); [contradiction | reflexivity].
Qed.

Lemma falsy_string (v : jsval) (s : string) :
  truthy v = false -> v = VStr s -> s = "".
Proof.
  intros H ->. simpl in H. destruct (String.eqb_spec s ""); [assumption | discriminate].
Qed.

(** ** The two registrations of GET /api/cases/:email *)

Lemma cases_soql_differ (email : jsval) : cases_v1_soql email <> cases_v2_soql email.
Proof.
  unfold cases_v1_soql, cases_v2_soql, template, nl. simpl.
  intros H. congruence.
Qed.

Lemma template_one_hole (p s : string) (v : jsval) :
  template [TLit p; TSub v; TLit s] = p ++ to_string v ++ s.
Proof. simpl. rewrite append_empty_r. reflexivity. Qed.

Lemma cases_v1_disconnected (up : upstream) (req : request) :
  truthy (accessToken up) = false ->
  run (cases_v1 up req) =
  (Ok tt, mkWorld [] [] (Some (mkResponse 401 (Json (error_body "Salesforce not connected"))))).
Proof. intros H. unfold cases_v1. rewrite H. reflexivity. Qed.

Lemma cases_v1_rejected (up : upstream) (req : request) (e : js_error) :
  truthy (accessToken up) = true ->
  query up (cases_v1_soql (param req "email")) = Rejected e ->
  run (cases_v1 up req) =
  (Throw (ReferenceError "urlName"),
   mkWorld [CrmQuery (cases_v1_soql (param req "email"))] [] None).
Proof.
  intros Ht Hq. unfold cases_v1. rewrite Ht. step_handler. rewrite Hq. reflexivity.
Qed.

Lemma cases_v1_resolved (up : upstream) (req : request) (fields : list (string * jsval)) :
  truthy (accessToken up) = true ->
  query up (cases_v1_soql (param req "email")) = Resolved (VObj fields) ->
  run (cases_v1 up req) =
  (Ok tt,
   mkWorld [CrmQuery (cases_v1_soql (param req "email"))] []
           (Some (mkResponse 200 (Json (lookup "records" fields))))).
Proof.
  intros Ht Hq. unfold cases_v1. rewrite Ht. step_handler. rewrite Hq. reflexivity.
Qed.

Lemma cases_v1_calls (up : upstream) (req : request) :
  truthy (accessToken up) = true ->
  calls (snd (run (cases_v1 up req))) = [CrmQuery (cases_v1_soql (param req "email"))].
Proof.
  intros Ht. unfold cases_v1. rewrite Ht. step_handler.
  destruct (query up _) as [v|e]; [destruct v|]; reflexivity.
Qed.

Lemma cases_v1_statuses (up : upstream) (req : request) (r : response) :
  sent (snd (run (cases_v1 up req))) = Some r -> status r = 401 \/ status r = 200.
Proof.
  unfold cases_v1. destruct (truthy (accessToken up)); step_handler.
  - destruct (query up _) as [v|e]; [destruct v|]; simpl; intros H;
      try discriminate; injection H as <-; right; reflexivity.
  - intros H; injection H as <-; left; reflexivity.
Qed.

Lemma cases_v2_blank (up : upstream) (req : request) :
  truthy (param req "email") = false ->
  run (cases_v2 up req) =
  (Ok tt, mkWorld [] [] (Some (mkResponse 400 (Json (error_body "Email parameter is required."))))).
Proof. intros H. unfold cases_v2. rewrite H. reflexivity. Qed.

Lemma cases_v2_calls (up : upstream) (req : request) :
  truthy (param req "email") = true ->
  calls (snd (run (cases_v2 up req))) = [CrmQuery (cases_v2_soql (param req "email"))].
Proof.
  intros Ht. unfold cases_v2. rewrite Ht. step_handler.
  destruct (query up _) as [v|e]; [destruct v|]; reflexivity.
Qed.

Lemma cases_v2_rejected (up : upstream) (req : request) (e : js_error) :
  truthy (param req "email") = true ->
  query up (cases_v2_soql (param req "email")) = Rejected e ->
  run (cases_v2 up req) =
  (Ok tt,
   mkWorld [CrmQuery (cases_v2_soql (param req "email"))]
           [[VStr "Error fetching cases for email:"; param req "email"; VStr (err_message e)]]
           (Some (mkResponse 500
              (Json (error_body ("Failed to fetch cases for email " ++ to_string (param req "email"))))))).
Proof.
  intros Ht Hq. unfold cases_v2. rewrite Ht. step_handler. rewrite Hq. simpl.
  rewrite append_empty_r. reflexivity.
Qed.

Lemma cases_v1_soql_filter (email : jsval) :
  includes ("WHERE Contact.Email = '" ++ to_string email ++ "' AND Status != 'Closed'")
           (cases_v1_soql email) = true.
Proof.
  apply includes_spec. unfold cases_v1_soql. rewrite template_one_hole.
  exists (nl ++ "      SELECT Id, CaseNumber, Subject, Description, Status, CreatedDate " ++ nl ++
          "      FROM Case " ++ nl ++ "      ").
  exists (nl ++ "      ORDER BY CreatedDate DESC" ++ nl ++ "    ").
  unfold nl. simpl. rewrite !append_assoc. reflexivity.
Qed.

Lemma cases_v2_soql_filter (email : jsval) :
  includes ("WHERE ContactEmail = '" ++ to_string email ++ "' AND IsClosed = false")
           (cases_v2_soql email) = true.
Proof.
  apply includes_spec. unfold cases_v2_soql. rewrite template_one_hole.
  exists (nl ++ "      SELECT Id, CaseNumber, Subject, Status, CreatedDate, Description " ++ nl ++
          "      FROM Case " ++ nl ++ "      ").
  exists (nl ++ "      ORDER BY CreatedDate DESC" ++ nl ++ "    ").
  unfold nl. simpl. rewrite !append_assoc. reflexivity.
Qed.

Lemma cases_v2_statuses (up : upstream) (req : request) (r : response) :
  sent (snd (run (cases_v2 up req))) = Some r ->
  status r = 400 \/ status r = 200 \/ status r = 500.
Proof.
  unfold cases_v2. destruct (truthy (param req "email")); step_handler.
  - destruct (query up _) as [v|e]; [destruct v|]; simpl; intros H;
      injection H as <-; auto.
  - intros H; injection H as <-; auto.
Qed.

(** Express runs the first matching registration: a GET of
    /api/cases/<email> is handled by the first handler, and the second is
    never reached. *)
Lemma first_cases_registration_handles (on_error : js_error -> M unit)
    (email : string) (origin : option string) (fields : list (string * jsval)) :
  email <> "" ->
  dispatch (routes on_error) (mkRequest GET ["api"; "cases"; email] origin [] fields) =
  Some (cases_v1, mkRequest GET ["api"; "cases"; email] origin [("email", email)] fields).
Proof.
  intros Hne.
  assert (Ee : (email =? "") = false)
    by (destruct (String.eqb_spec email ""); [contradiction | reflexivity]).
  unfold dispatch, routes, match_pattern.
  cbn [route_method route_pattern route_handler req_method req_path handles_method
       strip_trailing_slash].
  rewrite Ee. cbn. rewrite Ee. reflexivity.
Qed.

(** C1: GET /api/cases/:email is registered twice and the two handlers are
    not equivalent.  For the same email the first queries on Contact.Email
    with Status != 'Closed' and the second on ContactEmail with
    IsClosed = false, so the queries they send differ; only the second
    answers 400 on an empty email (the first never answers 400), and only
    the first answers 401 on a missing session token (the second never
    answers 401 and sends its query whatever the token). *)
Theorem cases_registrations_not_equivalent
    (on_error : js_error -> M unit) (up : upstream) (req : request) :
  let email := param req "email" in
  (nth_error (routes on_error) 3 = Some (mkRoute GET cases_pattern cases_v1) /\
   nth_error (routes on_error) 4 = Some (mkRoute GET cases_pattern cases_v2)) /\
  includes ("WHERE Contact.Email = '" ++ to_string email ++ "' AND Status != 'Closed'")
           (cases_v1_soql email) = true /\
  includes ("WHERE ContactEmail = '" ++ to_string email ++ "' AND IsClosed = false")
           (cases_v2_soql email) = true /\
  cases_v1_soql email <> cases_v2_soql email /\
  (truthy (accessToken up) = true ->
   calls (snd (run (cases_v1 up req))) = [CrmQuery (cases_v1_soql email)]) /\
  (truthy email = true ->
   calls (snd (run (cases_v2 up req))) = [CrmQuery (cases_v2_soql email)]) /\
  (truthy email = false ->
   run (cases_v2 up req) =
   (Ok tt, mkWorld [] [] (Some (mkResponse 400 (Json (error_body "Email parameter is required.")))))) /\
  (forall r, sent (snd (run (cases_v1 up req))) = Some r -> status r <> 400) /\
  (truthy (accessToken up) = false ->
   run (cases_v1 up req) =
   (Ok tt, mkWorld [] [] (Some (mkResponse 401 (Json (error_body "Salesforce not connected")))))) /\
  (forall r, sent (snd (run (cases_v2 up req))) = Some r -> status r <> 401).
Proof.
  intros email. repeat split.
  - apply cases_v1_soql_filter.
  - apply cases_v2_soql_filter.
  - apply cases_soql_differ.
  - apply cases_v1_calls.
  - apply cases_v2_calls.
  - apply cases_v2_blank.
  - intros r H. destruct (cases_v1_statuses up req r H) as [E|E]; rewrite E; discriminate.
  - apply cases_v1_disconnected.
  - intros r H. destruct (cases_v2_statuses up req r H) as [E|[E|E]]; rewrite E; discriminate.
Qed.

Lemma cases_registrations_not_equivalent_witness :
  (run (cases_v2 disconnected (get_request ["api"; "cases"; ""] [("email", "")])) =
   (Ok tt, mkWorld [] [] (Some (mkResponse 400 (Json (error_body "Email parameter is required."))))) /\
   run (cases_v1 disconnected (get_request ["api"; "cases"; ""] [("email", "")])) =
   (Ok tt, mkWorld [] [] (Some (mkResponse 401 (Json (error_body "Salesforce not connected")))))) /\
  (calls (snd (run (cases_v1 healthy (get_request ["api"; "cases"; "a@b.co"] [("email", "a@b.co")])))) =
   [CrmQuery (cases_v1_soql (VStr "a@b.co"))] /\
   calls (snd (run (cases_v2 healthy (get_request ["api"; "cases"; "a@b.co"] [("email", "a@b.co")])))) =
   [CrmQuery (cases_v2_soql (VStr "a@b.co"))]).
Proof.
  split.
  - destruct (cases_registrations_not_equivalent (fun _ => ret tt) disconnected
                (get_request ["api"; "cases"; ""] [("email", "")]))
      as (_ & _ & _ & _ & _ & _ & H400 & _ & H401 & _).
    split; [apply H400 | apply H401]; reflexivity.
  - destruct (cases_registrations_not_equivalent (fun _ => ret tt) healthy
                (get_request ["api"; "cases"; "a@b.co"] [("email", "a@b.co")]))
      as (_ & _ & _ & _ & H1 & H2 & _).
    split; [apply H1 | apply H2]; reflexivity.
Defined.

(** ** Failure paths *)

Lemma try_catch_cases {A} (body : M A) (on_throw : js_error -> M A) (w : world)
    (P : result A * world -> Prop) :
  (forall a w', body w = (Ok a, w') -> P (Ok a, w')) ->
  (forall e w', body w = (Throw e, w') -> P (on_throw e w')) ->
  P (try_catch body on_throw w).
Proof.
  intros Hok Hthrow. unfold try_catch.
  destruct (body w) as [[a|e] w'] eqn:E; [apply Hok | apply Hthrow]; reflexivity.
Qed.

Lemma settles_success (w : world) (code : nat) (v : payload) :
  code < 400 -> sent w = Some (mkResponse code v) -> settles (Ok tt, w).
Proof.
  intros Hc Hs. split; [reflexivity|]. exists (mkResponse code v).
  split; [exact Hs | left; exact Hc].
Qed.

Lemma settles_envelope (w : world) (code : nat) (msg : string) :
  400 <= code -> sent w = Some (mkResponse code (Json (error_body msg))) ->
  settles (Ok tt, w).
Proof.
  intros Hc Hs. split; [reflexivity|]. exists (mkResponse code (Json (error_body msg))).
  split; [exact Hs | right; split; [exact Hc | exists msg; reflexivity]].
Qed.

Lemma bind_ok {A B} (m : M A) (k : A -> M B) (w w' : world) (b : B) :
  bind m k w = (Ok b, w') -> exists a w1, m w = (Ok a, w1) /\ k a w1 = (Ok b, w').
Proof.
  unfold bind. destruct (m w) as [[a|e] w1]; intros H; [|discriminate].
  exists a, w1. split; [reflexivity | exact H].
Qed.

Lemma res_json_sent (code : nat) (v : jsval) (w w' : world) (u : unit) :
  res_json code v w = (Ok u, w') -> sent w' = Some (mkResponse code (Json v)).
Proof. unfold res_json. intros H. injection H as _ <-. reflexivity. Qed.

Ltac last_step H :=
  repeat (apply bind_ok in H; destruct H as (? & ? & _ & H)).

(** GET /api/knowledge/categories catches whatever its two calls or the
    reads in between throw. *)
Lemma categories_settles (up : upstream) (req : request) :
  settles (run (categories up req)).
Proof.
  unfold categories, run. apply try_catch_cases.
  - intros [] w' H. last_step H. apply res_json_sent in H.
    eapply settles_success; [|exact H]. lia.
  - intros e w' _. step_handler. eapply settles_envelope; [|reflexivity]. lia.
Qed.

Lemma cases_v2_settles (up : upstream) (req : request) :
  settles (run (cases_v2 up req)).
Proof.
  unfold cases_v2, run. destruct (truthy (param req "email")); simpl.
  - apply try_catch_cases.
    + intros [] w' H. last_step H. apply res_json_sent in H.
      eapply settles_success; [|exact H]. lia.
    + intros e w' _. step_handler. eapply settles_envelope; [|reflexivity]. lia.
  - eapply settles_envelope; [|reflexivity]. lia.
Qed.

Lemma reply_settles (up : upstream) (req : request) :
  settles (run (reply up req)).
Proof.
  unfold reply, run. destruct (truthy (field req "commentBody")); simpl.
  - apply try_catch_cases.
    + intros [] w' H. last_step H. apply res_json_sent in H.
      eapply settles_success; [|exact H]. lia.
    + intros e w' _. step_handler. eapply settles_envelope; [|reflexivity]. lia.
  - eapply settles_envelope; [|reflexivity]. lia.
Qed.

Lemma search_settles (up : upstream) (req : request) :
  settles (run (search_handler up req)).
Proof.
  unfold search_handler, run. destruct (truthy (field req "searchTerm")); simpl.
  - apply try_catch_cases.
    + intros [] w' H.
      apply bind_ok in H; destruct H as (soslQuery & w0 & _ & H).
      apply bind_ok in H; destruct H as (soslResult & w1 & _ & H).
      apply bind_ok in H; destruct H as (arts & w2 & _ & H).
      destruct (no_candidates arts).
      * apply res_json_sent in H. eapply settles_success; [|exact H]. lia.
      * last_step H. apply res_json_sent in H.
        eapply settles_success; [|exact H]. lia.
    + intros e w' _. step_handler. eapply settles_envelope; [|reflexivity]. lia.
  - eapply settles_envelope; [|reflexivity]. lia.
Qed.

(** C3: every failing upstream call is caught in its handler and answered
    with an error envelope.  The first GET /api/cases/:email handler breaks
    this: when its query is rejected, the catch block reads [urlName], which
    nothing declares, so a ReferenceError leaves the handler and no response
    is sent. *)
Theorem cases_v1_upstream_failure_escapes
    (up : upstream) (req : request) (e : js_error) :
  truthy (accessToken up) = true ->
  query up (cases_v1_soql (param req "email")) = Rejected e ->
  run (cases_v1 up req) =
  (Throw (mkError "ReferenceError" "urlName is not defined"),
   mkWorld [CrmQuery (cases_v1_soql (param req "email"))] [] None) /\
  ~ settles (run (cases_v1 up req)).
Proof.
  intros Ht Hq. rewrite (cases_v1_rejected up req e Ht Hq). split; [reflexivity|].
  intros [H _]. discriminate H.
Qed.

Lemma cases_v1_upstream_failure_escapes_witness :
  fst (run (cases_v1 failing (get_request ["api"; "cases"; "a@b.co"] [("email", "a@b.co")]))) =
  Throw (mkError "ReferenceError" "urlName is not defined") /\
  sent (snd (run (cases_v1 failing (get_request ["api"; "cases"; "a@b.co"] [("email", "a@b.co")])))) =
  None.
Proof.
  destruct (cases_v1_upstream_failure_escapes failing
              (get_request ["api"; "cases"; "a@b.co"] [("email", "a@b.co")])
              upstream_error eq_refl eq_refl) as [H _].
  rewrite H. split; reflexivity.
Defined.

(** ** Validation *)

Lemma reply_blank (up : upstream) (req : request) :
  truthy (field req "commentBody") = false ->
  run (reply up req) =
  (Ok tt, mkWorld [] [] (Some (mkResponse 400 (Json (error_body "commentBody is required."))))).
Proof. intros H. unfold reply. rewrite H. reflexivity. Qed.

Lemma reply_calls (up : upstream) (req : request) :
  truthy (field req "commentBody") = true ->
  calls (snd (run (reply up req))) =
  [CrmCreate "CaseComment"
     (case_comment (param req "caseId") (field req "commentBody") (field req "isPublic"))].
Proof.
  intros Ht. unfold reply. rewrite Ht. step_handler.
  destruct (create up _ _) as [v|e]; reflexivity.
Qed.

Lemma reply_resolved (up : upstream) (req : request) (created : jsval) :
  truthy (field req "commentBody") = true ->
  create up "CaseComment"
    (case_comment (param req "caseId") (field req "commentBody") (field req "isPublic")) =
  Resolved created ->
  run (reply up req) =
  (Ok tt,
   mkWorld [CrmCreate "CaseComment"
              (case_comment (param req "caseId") (field req "commentBody") (field req "isPublic"))]
           [] (Some (mkResponse 201 (Json created)))).
Proof.
  intros Ht Hc. unfold reply. rewrite Ht. step_handler. rewrite Hc. reflexivity.
Qed.

Lemma search_blank (up : upstream) (req : request) :
  truthy (field req "searchTerm") = false ->
  run (search_handler up req) =
  (Ok tt, mkWorld [] [] (Some (mkResponse 400 (Json (error_body "searchTerm is required."))))).
Proof. intros H. unfold search_handler. rewrite H. reflexivity. Qed.

(** The path through the router: an empty [:caseId] segment matches no
    registration, so the request is answered by Express's 404 and not by
    a handler. *)
Lemma reply_empty_segment_unrouted (on_error : js_error -> M unit) (up : upstream)
    (fields : list (string * jsval)) :
  app_handle on_error up (post_request ["api"; "cases"; ""; "reply"] [] fields) = NoRoute.
Proof. reflexivity. Qed.

Lemma reply_blank_segment_routed (on_error : js_error -> M unit) :
  dispatch (routes on_error)
    (post_request ["api"; "cases"; " "; "reply"] [] [("commentBody", VStr "thanks")]) =
  Some (reply, post_request ["api"; "cases"; " "; "reply"] [("caseId", " ")]
                 [("commentBody", VStr "thanks")]).
Proof. reflexivity. Qed.

(** C4, as stated, fails: POST /api/cases/:caseId/reply requires [caseId],
    which its handler never tests.  Handed a request without [caseId] and
    with a comment body, the handler creates the comment (one upstream
    call) instead of answering 400.  Through the router, an empty segment
    matches no registration (no handler answers 400), and a blank segment
    (one space) reaches the handler, which creates a comment for it. *)
Lemma reply_missing_caseId_not_rejected :
  ~ rejects_blank reply (fun req => param req "caseId") /\
  app_handle (fun _ => ret tt) healthy
    (post_request ["api"; "cases"; ""; "reply"] [] [("commentBody", VStr "thanks")]) =
  NoRoute /\
  app_handle (fun _ => ret tt) healthy
    (post_request ["api"; "cases"; " "; "reply"] [] [("commentBody", VStr "thanks")]) =
  Handled (Ok tt)
    (mkWorld [CrmCreate "CaseComment"
                (VObj [("ParentId", VStr " "); ("CommentBody", VStr "thanks");
                       ("IsPublished", VBool false)])]
             []
             (Some (mkResponse 201 (Json (VObj [("id", VStr "00a01"); ("success", VBool true)]))))).
Proof.
  split; [|split; reflexivity].
  intros H.
  destruct (H healthy (post_request ["api"; "cases"; ""; "reply"] []
                         [("commentBody", VStr "thanks")]) eq_refl) as [Hcalls _].
  discriminate Hcalls.
Qed.

(** C4, amended: the body fields [commentBody] (reply) and [searchTerm]
    (search), and the [email] of the second GET /api/cases/:email handler,
    are validated: when the value is missing or empty the handler answers
    400 with a non-empty [error] and makes no upstream call. *)
Theorem body_fields_validated_before_upstream :
  rejects_blank reply (fun req => field req "commentBody") /\
  rejects_blank search_handler (fun req => field req "searchTerm") /\
  rejects_blank cases_v2 (fun req => param req "email").
Proof.
  repeat split.
  - rewrite (reply_blank up req H). reflexivity.
  - exists "commentBody is required.". split; [discriminate|].
    rewrite (reply_blank up req H). reflexivity.
  - rewrite (search_blank up req H). reflexivity.
  - exists "searchTerm is required.". split; [discriminate|].
    rewrite (search_blank up req H). reflexivity.
  - rewrite (cases_v2_blank up req H). reflexivity.
  - exists "Email parameter is required.". split; [discriminate|].
    rewrite (cases_v2_blank up req H). reflexivity.
Qed.

Lemma body_fields_validated_before_upstream_witness :
  calls (snd (run (search_handler healthy (post_request ["api"; "search"] [] [("searchTerm", VStr "")])))) = [] /\
  calls (snd (run (reply healthy (post_request ["api"; "cases"; "500x"; "reply"] [("caseId", "500x")] [])))) = [] /\
  calls (snd (run (cases_v2 healthy (get_request ["api"; "cases"; ""] [])))) = [].
Proof.
  destruct body_fields_validated_before_upstream as (Hr & Hs & Hc).
  split; [|split].
  - apply (Hs healthy (post_request ["api"; "search"] [] [("searchTerm", VStr "")]) eq_refl).
  - apply (Hr healthy (post_request ["api"; "cases"; "500x"; "reply"] [("caseId", "500x")] []) eq_refl).
  - apply (Hc healthy (get_request ["api"; "cases"; ""] []) eq_refl).
Defined.

(** ** Session *)

Lemma categories_first_call (up : upstream) (req : request) :
  hd_error (calls (snd (run (categories up req)))) =
  Some (CrmGetDataCategoryGroups ["Knowledge"]).
Proof.
  unfold categories. step_handler.
  destruct (getDataCategoryGroups up _) as [g|e]; simpl; [|reflexivity].
  unfold get_first.
  destruct g as [| | |s|items|fields]; simpl; try reflexivity.
  - destruct s; simpl; [reflexivity|].
    destruct (getCategoryTree up _ _); reflexivity.
  - destruct (hd VUndef items); simpl; try reflexivity;
      destruct (getCategoryTree up _ _); reflexivity.
  - destruct (lookup "0" fields); simpl; try reflexivity;
      destruct (getCategoryTree up _ _); reflexivity.
Qed.

Lemma article_context_state (art : jsval) (w : world) :
  snd (article_context art w) = w.
Proof.
  unfold article_context, bind, get_prop, ret, throw.
  destruct art as [| | | | |fields]; reflexivity.
Qed.

Lemma map_m_article_context_state (items : list jsval) (w : world) :
  snd (map_m article_context items w) = w.
Proof.
  induction items as [|x r IH]; simpl; [reflexivity|].
  unfold bind. pose proof (article_context_state x w) as Hx.
  destruct (article_context x w) as [[y|e] w1]; simpl in Hx; subst w1; [|reflexivity].
  destruct (map_m article_context r w) as [[ys|e] w2]; simpl in IH; subst w2; reflexivity.
Qed.

Lemma array_map_state (v : jsval) (w : world) :
  snd (array_map article_context v w) = w.
Proof.
  destruct v; try reflexivity. apply map_m_article_context_state.
Qed.

Lemma eval_search_sosl (v : jsval) (w : world) :
  eval_template (search_sosl_parts v) w =
  match ToString v with
  | Some _ => (Ok (search_sosl v), w)
  | None => (Throw (TypeError "Cannot convert object to primitive value"), w)
  end.
Proof.
  unfold search_sosl, search_sosl_parts, eval_template, template, to_string_m, to_string,
         bind, ret, throw.
  destruct (ToString v); reflexivity.
Qed.

Lemma eval_search_sosl_string (term : string) (w : world) :
  eval_template (search_sosl_parts (VStr term)) w = (Ok (search_sosl (VStr term)), w).
Proof. rewrite eval_search_sosl. reflexivity. Qed.

(** The search handler on a non-empty string term: the query is built and
    the rest of the [try] block runs. *)
Lemma search_handler_string (up : upstream) (req : request) (term : string) :
  field req "searchTerm" = VStr term ->
  term <> "" ->
  run (search_handler up req) =
  try_catch
    (soslResult <- upstream_call (CrmSearch (search_sosl (VStr term)))
                                 (search up (search_sosl (VStr term))) ;;
     articles_ <- get_prop soslResult "searchRecords" ;;
     if no_candidates articles_ then
       res_json 200 (VObj [("answer", VStr no_articles_answer); ("sources", VArr [])])
     else
       parts <- array_map article_context articles_ ;;
       text <- upstream_call
                 (LlmGenerateContent
                    (search_prompt (join context_separator parts) (VStr term)))
                 (generateContent up
                    (search_prompt (join context_separator parts) (VStr term))) ;;
       res_json 200 (VObj [("answer", text); ("sources", articles_)]))
    (fun err =>
       console_error [VStr "Error in semantic search:"; VStr (err_message err)] ;;
       res_json 500 (error_body "Failed to perform search"))
    init.
Proof.
  intros Hf Hne. unfold search_handler, run.
  rewrite Hf, (truthy_string term Hne). change (negb true) with false. cbv iota.
  unfold try_catch. unfold bind at 1. rewrite eval_search_sosl_string. reflexivity.
Qed.

Lemma search_first_call (up : upstream) (req : request) (term : string) :
  field req "searchTerm" = VStr term ->
  term <> "" ->
  hd_error (calls (snd (run (search_handler up req)))) =
  Some (CrmSearch (search_sosl (VStr term))).
Proof.
  intros Hf Hne. rewrite (search_handler_string up req term Hf Hne). step_handler.
  destruct (search up _) as [v|e]; simpl; [|reflexivity].
  destruct v as [| | | | |fields]; simpl; try reflexivity.
  destruct (no_candidates (lookup "searchRecords" fields)); [reflexivity|].
  match goal with |- context [array_map ?f ?a ?w] =>
    pose proof (array_map_state a w) as Hs;
    destruct (array_map f a w) as [[parts|e] w1]
  end; simpl in Hs; subst w1; simpl; [|reflexivity].
  destruct (generateContent up _); reflexivity.
Qed.

Lemma search_rejected (up : upstream) (req : request) (term : string) (e : js_error) :
  field req "searchTerm" = VStr term ->
  term <> "" ->
  search up (search_sosl (VStr term)) = Rejected e ->
  run (search_handler up req) =
  (Ok tt,
   mkWorld [CrmSearch (search_sosl (VStr term))]
           [[VStr "Error in semantic search:"; VStr (err_message e)]]
           (Some (mkResponse 500 (Json (error_body "Failed to perform search"))))).
Proof.
  intros Hf Hne Hs. rewrite (search_handler_string up req term Hf Hne). step_handler.
  rewrite Hs. reflexivity.
Qed.

Lemma categories_rejected (up : upstream) (req : request) (e : js_error) :
  getDataCategoryGroups up ["Knowledge"] = Rejected e ->
  run (categories up req) =
  (Ok tt,
   mkWorld [CrmGetDataCategoryGroups ["Knowledge"]]
           [[VStr "Error fetching knowledge categories:"; VStr (err_message e)]]
           (Some (mkResponse 500 (Json (error_body "Failed to fetch knowledge categories"))))).
Proof. intros Hg. unfold categories. step_handler. rewrite Hg. reflexivity. Qed.

Lemma reply_rejected (up : upstream) (req : request) (e : js_error) :
  truthy (field req "commentBody") = true ->
  create up "CaseComment"
    (case_comment (param req "caseId") (field req "commentBody") (field req "isPublic")) =
  Rejected e ->
  run (reply up req) =
  (Ok tt,
   mkWorld [CrmCreate "CaseComment"
              (case_comment (param req "caseId") (field req "commentBody") (field req "isPublic"))]
           [[VStr "Error posting case comment:"; VStr (err_message e)]]
           (Some (mkResponse 500 (Json (error_body "Failed to post reply"))))).
Proof.
  intros Ht Hc. unfold reply. rewrite Ht. step_handler. rewrite Hc. reflexivity.
Qed.

Lemma articles_resolved (on_error : js_error -> M unit) (up : upstream) (req : request)
    (fields : list (string * jsval)) :
  query up (articles_query (param req "categoryName")) = Resolved (VObj fields) ->
  run (articles on_error up req) =
  (Ok tt,
   mkWorld [CrmQuery (articles_query (param req "categoryName"))] []
     (Some (mkResponse 200 (Json (lookup "records" fields))))).
Proof. intros Hq. unfold articles. step_handler. rewrite Hq. reflexivity. Qed.

Lemma articles_rejected (on_error : js_error -> M unit) (up : upstream) (req : request)
    (e : js_error) :
  query up (articles_query (param req "categoryName")) = Rejected e ->
  run (articles on_error up req) =
  on_error e (mkWorld [CrmQuery (articles_query (param req "categoryName"))] [] None).
Proof. intros Hq. unfold articles. step_handler. rewrite Hq. reflexivity. Qed.

(** The articles handler does not test [categoryName]: handed a request
    without it, it still queries. *)
Lemma articles_categoryName_not_validated (on_error : js_error -> M unit) :
  ~ rejects_blank (articles on_error) (fun req => param req "categoryName").
Proof.
  intros H.
  destruct (H healthy (get_request ["api"; "knowledge"; "articles"; ""] []) eq_refl)
    as [Hc _].
  rewrite (articles_resolved on_error healthy _ [("records", VArr [])] eq_refl) in Hc.
  discriminate Hc.
Qed.

(** C8, as stated, fails: GET /api/knowledge/categories needs the CRM
    session, yet with no session it calls the CRM and, when that call is
    rejected, answers 500 rather than 401. *)
Lemma categories_skips_session_check : ~ checks_session_first categories.
Proof.
  intros H.
  destruct (H disconnected (get_request ["api"; "knowledge"; "categories"] []) eq_refl)
    as [Hcalls _].
  discriminate Hcalls.
Qed.

(** C8, amended: of the handlers in the source, only the first
    GET /api/cases/:email handler checks the CRM session: with no session
    token it answers 401 {error: 'Salesforce not connected'} before any
    upstream call.  The category, articles, second cases, reply and search
    handlers make no such check: whatever the token they make their
    upstream call (the search handler once the term is a non-empty
    string), and when that call is rejected the category, second cases,
    reply and search handlers answer 500 with their error envelope (the
    articles handler hands the error to its catch block, which is not in
    the listing). *)
Theorem session_checked_by_first_cases_handler_only
    (on_error : js_error -> M unit) (up : upstream) (req : request) (e : js_error) :
  (truthy (accessToken up) = false ->
   run (cases_v1 up req) =
   (Ok tt, mkWorld [] [] (Some (mkResponse 401 (Json (error_body "Salesforce not connected")))))) /\
  (~ checks_session_first categories /\
   ~ checks_session_first (articles on_error) /\
   ~ checks_session_first cases_v2 /\
   ~ checks_session_first reply /\
   ~ checks_session_first search_handler) /\
  hd_error (calls (snd (run (categories up req)))) =
    Some (CrmGetDataCategoryGroups ["Knowledge"]) /\
  (forall fields,
     query up (articles_query (param req "categoryName")) = Resolved (VObj fields) ->
     run (articles on_error up req) =
     (Ok tt,
      mkWorld [CrmQuery (articles_query (param req "categoryName"))] []
              (Some (mkResponse 200 (Json (lookup "records" fields)))))) /\
  (query up (articles_query (param req "categoryName")) = Rejected e ->
   run (articles on_error up req) =
   on_error e (mkWorld [CrmQuery (articles_query (param req "categoryName"))] [] None)) /\
  (truthy (param req "email") = true ->
   calls (snd (run (cases_v2 up req))) = [CrmQuery (cases_v2_soql (param req "email"))]) /\
  (truthy (field req "commentBody") = true ->
   calls (snd (run (reply up req))) =
   [CrmCreate "CaseComment"
      (case_comment (param req "caseId") (field req "commentBody") (field req "isPublic"))]) /\
  (forall term, field req "searchTerm" = VStr term -> term <> "" ->
   hd_error (calls (snd (run (search_handler up req)))) =
   Some (CrmSearch (search_sosl (VStr term)))) /\
  (getDataCategoryGroups up ["Knowledge"] = Rejected e ->
   sent (snd (run (categories up req))) =
   Some (mkResponse 500 (Json (error_body "Failed to fetch knowledge categories")))) /\
  (truthy (param req "email") = true ->
   query up (cases_v2_soql (param req "email")) = Rejected e ->
   sent (snd (run (cases_v2 up req))) =
   Some (mkResponse 500
           (Json (error_body ("Failed to fetch cases for email " ++
                              to_string (param req "email")))))) /\
  (truthy (field req "commentBody") = true ->
   create up "CaseComment"
     (case_comment (param req "caseId") (field req "commentBody") (field req "isPublic")) =
   Rejected e ->
   sent (snd (run (reply up req))) =
   Some (mkResponse 500 (Json (error_body "Failed to post reply")))) /\
  (forall term, field req "searchTerm" = VStr term -> term <> "" ->
   search up (search_sosl (VStr term)) = Rejected e ->
   sent (snd (run (search_handler up req))) =
   Some (mkResponse 500 (Json (error_body "Failed to perform search")))).
Proof.
  split; [apply cases_v1_disconnected|].
  split.
  { repeat split; intros H.
    - destruct (H disconnected (get_request ["api"; "knowledge"; "categories"] []) eq_refl)
        as [Hc _]. discriminate Hc.
    - destruct (H tokenless
                  (get_request ["api"; "knowledge"; "articles"; "Billing"]
                               [("categoryName", "Billing")]) eq_refl) as [Hc _].
      rewrite (articles_resolved on_error tokenless _ [("records", VArr [])] eq_refl) in Hc.
      discriminate Hc.
    - destruct (H disconnected
                  (get_request ["api"; "cases"; "a@b.co"] [("email", "a@b.co")]) eq_refl)
        as [Hc _]. discriminate Hc.
    - destruct (H disconnected
                  (post_request ["api"; "cases"; "500x"; "reply"] [("caseId", "500x")]
                                [("commentBody", VStr "thanks")]) eq_refl) as [Hc _].
      discriminate Hc.
    - destruct (H disconnected
                  (post_request ["api"; "search"] [] [("searchTerm", VStr "vpn")]) eq_refl)
        as [Hc _]. discriminate Hc. }
  split; [apply categories_first_call|].
  split; [intros fields Hq; apply (articles_resolved on_error up req fields Hq)|].
  split; [apply articles_rejected|].
  split; [apply cases_v2_calls|].
  split; [apply reply_calls|].
  split; [intros term Hf Hne; apply (search_first_call up req term Hf Hne)|].
  split; [intros Hg; rewrite (categories_rejected up req e Hg); reflexivity|].
  split; [intros Ht Hq; rewrite (cases_v2_rejected up req e Ht Hq); reflexivity|].
  split; [intros Ht Hc; rewrite (reply_rejected up req e Ht Hc); reflexivity|].
  intros term Hf Hne Hs. rewrite (search_rejected up req term e Hf Hne Hs). reflexivity.
Qed.

Lemma session_checked_by_first_cases_handler_only_witness :
  let req := mkRequest GET ["api"; "cases"; "a@b.co"] None
               [("email", "a@b.co"); ("caseId", "500x")]
               [("commentBody", VStr "thanks"); ("searchTerm", VStr "vpn")] in
  run (cases_v1 disconnected req) =
  (Ok tt, mkWorld [] [] (Some (mkResponse 401 (Json (error_body "Salesforce not connected"))))) /\
  calls (snd (run (cases_v2 disconnected req))) = [CrmQuery (cases_v2_soql (VStr "a@b.co"))] /\
  sent (snd (run (cases_v2 disconnected req))) =
  Some (mkResponse 500 (Json (error_body "Failed to fetch cases for email a@b.co"))) /\
  sent (snd (run (reply disconnected req))) =
  Some (mkResponse 500 (Json (error_body "Failed to post reply"))) /\
  sent (snd (run (search_handler disconnected req))) =
  Some (mkResponse 500 (Json (error_body "Failed to perform search"))) /\
  sent (snd (run (categories disconnected req))) =
  Some (mkResponse 500 (Json (error_body "Failed to fetch knowledge categories"))).
Proof.
  intros req.
  assert (Hne : "vpn" <> "") by discriminate.
  destruct (session_checked_by_first_cases_handler_only (fun _ => ret tt) disconnected req
              upstream_error)
    as (H401 & _ & _ & _ & _ & Hv2 & _ & _ & Hcat & Hv2f & Hrep & Hsearch).
  split; [apply H401; reflexivity|].
  split; [apply Hv2; reflexivity|].
  split; [apply Hv2f; reflexivity|].
  split; [apply Hrep; reflexivity|].
  split; [apply (Hsearch "vpn" eq_refl Hne eq_refl)|].
  apply Hcat; reflexivity.
Defined.

(** ** The CORS gate *)

Lemma indexOf_none (x : string) (l : list string) :
  indexOf x l = None <-> ~ In x l.
Proof.
  induction l as [|y r IH]; simpl.
  - split; [intros _ [] | reflexivity].
  - destruct (String.eqb_spec y x) as [->|ne].
    + split; [discriminate | intros H; exfalso; apply H; left; reflexivity].
    + destruct (indexOf x r) as [i|].
      * split; [discriminate|]. intros H. exfalso.
        assert (Hn : ~ In x r) by (intros Hin; apply H; right; exact Hin).
        apply IH in Hn. discriminate Hn.
      * split; [|reflexivity]. intros _ [E|Hin]; [contradiction|].
        destruct IH as [IH _]. exact (IH eq_refl Hin).
Qed.

Lemma origin_accepted_spec (origin : option string) :
  origin_accepted origin = true <->
  origin = None \/ origin = Some "" \/
  exists o, origin = Some o /\ (includes "vercel.app" o = true \/ In o allowedOrigins).
Proof.
  unfold origin_accepted, cors_origin. destruct origin as [o|].
  - destruct (String.eqb_spec o "") as [->|ne].
    + split; [intros _; right; left; reflexivity | reflexivity].
    + destruct (includes "vercel.app" o) eqn:Ev.
      * split; [|reflexivity]. intros _. right; right. exists o. split; [reflexivity|].
        left; exact Ev.
      * destruct (indexOf o allowedOrigins) as [i|] eqn:Ei; simpl.
        -- split; [|reflexivity]. intros _. right; right. exists o.
           split; [reflexivity|]. right.
           destruct (in_dec string_dec o allowedOrigins) as [Hin|Hn]; [exact Hin|].
           apply indexOf_none in Hn. rewrite Hn in Ei. discriminate Ei.
        -- split; [discriminate|]. intros [H|[H|(o' & H & [Hv|Hin])]].
           ++ discriminate H.
           ++ injection H as ->. contradiction.
           ++ injection H as <-. rewrite Hv in Ev. discriminate Ev.
           ++ injection H as <-. apply indexOf_none in Ei. contradiction.
  - split; [intros _; left; reflexivity | reflexivity].
Qed.

Lemma cors_rejection_stops_request (on_error : js_error -> M unit)
    (up : upstream) (req : request) :
  origin_accepted (req_origin req) = false ->
  app_handle on_error up req = CorsRejection (mkError "Error" cors_message).
Proof.
  unfold app_handle, origin_accepted, cors_origin.
  destruct (req_origin req) as [o|]; [|discriminate].
  destruct (o =? ""); [discriminate|].
  destruct (includes "vercel.app" o); [discriminate|].
  destruct (indexOf o allowedOrigins); [discriminate|]. reflexivity.
Qed.

(** C7, as stated, fails: the gate also accepts a request that carries no
    Origin header, which is neither on the allow-list nor a match of the
    preview pattern (an empty Origin value is accepted likewise). *)
Lemma request_without_origin_accepted : ~ accepts_only_listed_or_preview.
Proof.
  intros H. destruct (H None) as [Hacc _].
  destruct (Hacc eq_refl) as (o & Ho & _). discriminate Ho.
Qed.

(** C7, amended: the gate accepts a request exactly when its Origin header
    is absent or empty, or the origin contains the text vercel.app, or the
    origin is on the allow-list (http://localhost:3000 alone); any other
    request is rejected by the gate with an Error, before routing, so that
    no handler runs and no upstream call is made for it. *)
Theorem cors_gate_accepts_and_rejects
    (on_error : js_error -> M unit) (up : upstream) (req : request) :
  (origin_accepted (req_origin req) = true <->
   req_origin req = None \/ req_origin req = Some "" \/
   exists o, req_origin req = Some o /\
             (includes "vercel.app" o = true \/ o = "http://localhost:3000")) /\
  (origin_accepted (req_origin req) = false ->
   app_handle on_error up req =
   CorsRejection (mkError "Error"
     "The CORS policy for this site does not allow access from the specified Origin.") /\
   handler_ran (app_handle on_error up req) = false /\
   effects (app_handle on_error up req) = []).
Proof.
  split.
  - rewrite origin_accepted_spec. unfold allowedOrigins. simpl.
    split; (intros [H|[H|(o & H & [Hv|Hin])]]; [left; exact H | right; left; exact H | |]);
      right; right; exists o; split; try exact H.
    + left; exact Hv.
    + right. destruct Hin as [E|[]]. symmetry; exact E.
    + left; exact Hv.
    + right. left. symmetry; exact Hin.
  - intros H. rewrite (cors_rejection_stops_request on_error up req H).
    repeat split.
Qed.

Lemma cors_gate_accepts_and_rejects_witness :
  app_handle (fun _ => ret tt) healthy
    (mkRequest POST ["api"; "cases"; "500x"; "reply"] (Some "https://evil.example") []
       [("commentBody", VStr "thanks")]) =
  CorsRejection (mkError "Error"
    "The CORS policy for this site does not allow access from the specified Origin.").
Proof.
  destruct (cors_gate_accepts_and_rejects (fun _ => ret tt) healthy
    (mkRequest POST ["api"; "cases"; "500x"; "reply"] (Some "https://evil.example") []
       [("commentBody", VStr "thanks")])) as [_ H].
  apply (H eq_refl).
Defined.

(** ** Search *)










Lemma search_resolved_empty (up : upstream) (req : request) (term : string)
    (fields : list (string * jsval)) :
  field req "searchTerm" = VStr term ->
  term <> "" ->
  search up (search_sosl (VStr term)) = Resolved (VObj fields) ->
  no_candidates (lookup "searchRecords" fields) = true ->
  run (search_handler up req) =
  (Ok tt,
   mkWorld [CrmSearch (search_sosl (VStr term))] []
     (Some (mkResponse 200
        (Json (VObj [("answer", VStr no_articles_answer); ("sources", VArr [])]))))).
Proof.
  intros Hf Hne Hs Hnone. rewrite (search_handler_string up req term Hf Hne).
  step_handler. rewrite Hs. simpl.
  rewrite Hnone. reflexivity.
Qed.


(** C5: for a non-empty [searchTerm] for which the CRM search returns no
    candidate, POST /api/search answers 200 with exactly the fixed answer
    and an empty [sources], and the language model is not called. *)
Theorem search_without_candidates
    (up : upstream) (req : request) (term : string) (fields : list (string * jsval)) :
  field req "searchTerm" = VStr term ->
  term <> "" ->
  search up (search_sosl (VStr term)) = Resolved (VObj fields) ->
  lookup "searchRecords" fields = VArr [] ->
  run (search_handler up req) =
  (Ok tt,
   mkWorld [CrmSearch (search_sosl (VStr term))] []
     (Some (mkResponse 200
        (Json (VObj [("answer", VStr "I couldn't find any articles related to your search.");
                     ("sources", VArr [])]))))) /\
  existsb is_llm_call (calls (snd (run (search_handler up req)))) = false.
Proof.
  intros Hf Hne Hs Hrec.
  assert (Hnone : no_candidates (lookup "searchRecords" fields) = true)
    by (rewrite Hrec; reflexivity).
  rewrite (search_resolved_empty up req term fields Hf Hne Hs Hnone).
  split; reflexivity.
Qed.

Lemma search_without_candidates_witness :
  run (search_handler healthy (post_request ["api"; "search"] [] [("searchTerm", VStr "xyzzy")])) =
  (Ok tt,
   mkWorld [CrmSearch (search_sosl (VStr "xyzzy"))] []
     (Some (mkResponse 200
        (Json (VObj [("answer", VStr "I couldn't find any articles related to your search.");
                     ("sources", VArr [])]))))).
Proof.
  refine (proj1 (search_without_candidates healthy
            (post_request ["api"; "search"] [] [("searchTerm", VStr "xyzzy")])
            "xyzzy" [("searchRecords", VArr [])] eq_refl _ eq_refl eq_refl)).
  discriminate.
Defined.



(** ** Query construction *)

(** An email that closes the quoted literal rewrites the WHERE clause. *)
Example cases_v2_soql_injection :
  includes "WHERE ContactEmail = '' OR ContactEmail != '' AND IsClosed = false"
           (cases_v2_soql (VStr "' OR ContactEmail != '")) = true.
Proof. reflexivity. Qed.

(** C9: the CRM query strings are built by plain concatenation around the
    raw input.  For every string [s], the articles query, both cases
    queries and the search query equal their fixed template with [s]
    substituted unchanged, and that string is what the handler sends
    upstream when [s] arrives as [categoryName], [email] or [searchTerm]. *)
Theorem queries_embed_input_verbatim
    (on_error : js_error -> M unit) (up : upstream) (req : request) (s : string) :
  (articles_query (VStr s) =
     (nl ++ "      SELECT Id, Title, UrlName, Summary " ++ nl ++
      "      FROM Knowledge__kav " ++ nl ++
      "      WHERE PublishStatus='Online' AND Language='en_US' " ++ nl ++
      "      AND DataCategorySelections.Knowledge.at('")
     ++ s ++
     ("')" ++ nl ++
      "      ORDER BY LastPublishedDate DESC" ++ nl ++
      "      LIMIT 20" ++ nl ++ "    ") /\
   cases_v1_soql (VStr s) =
     (nl ++ "      SELECT Id, CaseNumber, Subject, Description, Status, CreatedDate " ++ nl ++
      "      FROM Case " ++ nl ++
      "      WHERE Contact.Email = '")
     ++ s ++
     ("' AND Status != 'Closed'" ++ nl ++
      "      ORDER BY CreatedDate DESC" ++ nl ++ "    ") /\
   cases_v2_soql (VStr s) =
     (nl ++ "      SELECT Id, CaseNumber, Subject, Status, CreatedDate, Description " ++ nl ++
      "      FROM Case " ++ nl ++
      "      WHERE ContactEmail = '")
     ++ s ++
     ("' AND IsClosed = false" ++ nl ++
      "      ORDER BY CreatedDate DESC" ++ nl ++ "    ") /\
   search_sosl (VStr s) =
     (nl ++ "          FIND {*")
     ++ s ++
     ("*} IN ALL FIELDS " ++ nl ++
      "          RETURNING Knowledge__kav(Id, Title, Summary, UrlName WHERE PublishStatus='Online' AND Language='en_US' LIMIT 10)" ++ nl ++
      "        ")) /\
  (param req "categoryName" = VStr s ->
   forall fields, query up (articles_query (VStr s)) = Resolved (VObj fields) ->
   calls (snd (run (articles on_error up req))) = [CrmQuery (articles_query (VStr s))]) /\
  (param req "email" = VStr s -> truthy (accessToken up) = true ->
   calls (snd (run (cases_v1 up req))) = [CrmQuery (cases_v1_soql (VStr s))]) /\
  (param req "email" = VStr s -> s <> "" ->
   calls (snd (run (cases_v2 up req))) = [CrmQuery (cases_v2_soql (VStr s))]) /\
  (field req "searchTerm" = VStr s -> s <> "" ->
   hd_error (calls (snd (run (search_handler up req)))) =
   Some (CrmSearch (search_sosl (VStr s)))).
Proof.
  split; [|split; [|split; [|split]]].
  - unfold articles_query, cases_v1_soql, cases_v2_soql, search_sosl.
    rewrite !template_one_hole. repeat split.
  - intros Hp fields Hq. rewrite <- Hp in *.
    rewrite (articles_resolved on_error up req fields Hq). reflexivity.
  - intros Hp Ht. rewrite <- Hp. apply cases_v1_calls, Ht.
  - intros Hp Hne. rewrite <- Hp. apply cases_v2_calls.
    rewrite Hp. apply truthy_string, Hne.
  - intros Hf Hne. apply (search_first_call up req s Hf Hne).
Qed.

Lemma queries_embed_input_verbatim_witness :
  calls (snd (run (cases_v2 healthy
     (get_request ["api"; "cases"; "' OR ContactEmail != '"]
                  [("email", "' OR ContactEmail != '")])))) =
  [CrmQuery (cases_v2_soql (VStr "' OR ContactEmail != '"))] /\
  calls (snd (run (cases_v1 healthy
     (get_request ["api"; "cases"; "' OR ContactEmail != '"]
                  [("email", "' OR ContactEmail != '")])))) =
  [CrmQuery (cases_v1_soql (VStr "' OR ContactEmail != '"))] /\
  calls (snd (run (articles (fun _ => ret tt) healthy
     (get_request ["api"; "cases"; "' OR ContactEmail != '"]
                  [("categoryName", "' OR ContactEmail != '")])))) =
  [CrmQuery (articles_query (VStr "' OR ContactEmail != '"))].
Proof.
  assert (Hne : "' OR ContactEmail != '" <> "") by discriminate.
  split; [|split].
  - destruct (queries_embed_input_verbatim (fun _ => ret tt) healthy
      (get_request ["api"; "cases"; "' OR ContactEmail != '"]
                   [("email", "' OR ContactEmail != '")])
      "' OR ContactEmail != '") as (_ & _ & _ & H & _).
    apply (H eq_refl Hne).
  - destruct (queries_embed_input_verbatim (fun _ => ret tt) healthy
      (get_request ["api"; "cases"; "' OR ContactEmail != '"]
                   [("email", "' OR ContactEmail != '")])
      "' OR ContactEmail != '") as (_ & _ & H & _).
    apply (H eq_refl eq_refl).
  - destruct (queries_embed_input_verbatim (fun _ => ret tt) healthy
      (get_request ["api"; "cases"; "' OR ContactEmail != '"]
                   [("categoryName", "' OR ContactEmail != '")])
      "' OR ContactEmail != '") as (_ & H & _).
    apply (H eq_refl [("records", VArr [])] eq_refl).
Defined.

(** ** Case replies *)

(** C10: for every [caseId] and non-empty [commentBody],
    POST /api/cases/:caseId/reply creates exactly one CaseComment whose
    ParentId is [caseId] and whose CommentBody is [commentBody];
    IsPublished is false when [isPublic] is absent and true when it is
    true; when the creation succeeds the response is 201 with the record
    the CRM returned. *)
Theorem reply_creates_one_comment
    (up : upstream) (req : request) (caseId commentBody : string) :
  let published := js_or (field req "isPublic") (VBool false) in
  let comment := VObj [("ParentId", VStr caseId);
                       ("CommentBody", VStr commentBody);
                       ("IsPublished", published)] in
  param req "caseId" = VStr caseId ->
  field req "commentBody" = VStr commentBody ->
  commentBody <> "" ->
  calls (snd (run (reply up req))) = [CrmCreate "CaseComment" comment] /\
  (field req "isPublic" = VUndef -> published = VBool false) /\
  (field req "isPublic" = VBool true -> published = VBool true) /\
  (forall created, create up "CaseComment" comment = Resolved created ->
     run (reply up req) =
     (Ok tt, mkWorld [CrmCreate "CaseComment" comment] []
               (Some (mkResponse 201 (Json created))))).
Proof.
  intros published comment Hid Hbody Hne.
  assert (Ht : truthy (field req "commentBody") = true)
    by (rewrite Hbody; apply truthy_string, Hne).
  assert (Hc : case_comment (param req "caseId") (field req "commentBody")
                 (field req "isPublic") = comment)
    by (unfold case_comment, comment, published; rewrite Hid, Hbody; reflexivity).
  split; [|split; [|split]].
  - rewrite (reply_calls up req Ht), Hc. reflexivity.
  - intros H. unfold published. rewrite H. reflexivity.
  - intros H. unfold published. rewrite H. reflexivity.
  - intros created Hcr. rewrite <- Hc in *. apply (reply_resolved up req created Ht Hcr).
Qed.

Lemma reply_creates_one_comment_witness :
  run (reply healthy (post_request ["api"; "cases"; "500x"; "reply"] [("caseId", "500x")]
                        [("commentBody", VStr "thanks")])) =
  (Ok tt,
   mkWorld [CrmCreate "CaseComment"
              (VObj [("ParentId", VStr "500x"); ("CommentBody", VStr "thanks");
                     ("IsPublished", VBool false)])] []
     (Some (mkResponse 201 (Json (VObj [("id", VStr "00a01"); ("success", VBool true)]))))) /\
  calls (snd (run (reply healthy
     (post_request ["api"; "cases"; "500x"; "reply"] [("caseId", "500x")]
        [("commentBody", VStr "thanks"); ("isPublic", VBool true)])))) =
  [CrmCreate "CaseComment"
     (VObj [("ParentId", VStr "500x"); ("CommentBody", VStr "thanks");
            ("IsPublished", VBool true)])].
Proof.
  assert (Hne : "thanks" <> "") by discriminate.
  split.
  - destruct (reply_creates_one_comment healthy
      (post_request ["api"; "cases"; "500x"; "reply"] [("caseId", "500x")]
         [("commentBody", VStr "thanks")]) "500x" "thanks" eq_refl eq_refl Hne)
      as (_ & _ & _ & H).
    apply (H _ eq_refl).
  - destruct (reply_creates_one_comment healthy
      (post_request ["api"; "cases"; "500x"; "reply"] [("caseId", "500x")]
         [("commentBody", VStr "thanks"); ("isPublic", VBool true)])
      "500x" "thanks" eq_refl eq_refl Hne) as (H & _).
    exact H.
Defined.

(** * Further properties of the proxy *)

(** ** Health check *)

(** X1: GET /api/healthcheck, through the gate and the router: for a request
    the gate accepts, the answer is 200 with the text OK whatever the state
    of the CRM session and of the collaborators, and nothing is called. *)
Theorem healthcheck_always_ok
    (on_error : js_error -> M unit) (up : upstream)
    (origin : option string) (fields : list (string * jsval)) :
  origin_accepted origin = true ->
  app_handle on_error up (mkRequest GET ["api"; "healthcheck"] origin [] fields) =
  Handled (Ok tt) (mkWorld [] [] (Some (mkResponse 200 (Text "OK")))).
Proof.
  intros Hacc. unfold app_handle. simpl req_origin.
  unfold origin_accepted in Hacc.
  destruct (cors_origin origin) as [[e|] allow] eqn:Ec; [|reflexivity].
  unfold cors_origin in Ec. destruct origin as [o|]; [|discriminate].
  destruct (o =? ""); [discriminate|].
  destruct (includes "vercel.app" o); [discriminate|].
  destruct (indexOf o allowedOrigins); [discriminate|].
  injection Ec as _ <-. discriminate Hacc.
Qed.

Lemma healthcheck_always_ok_witness :
  app_handle (fun _ => ret tt) disconnected
    (mkRequest GET ["api"; "healthcheck"] (Some "http://localhost:3000") [] []) =
  Handled (Ok tt) (mkWorld [] [] (Some (mkResponse 200 (Text "OK")))).
Proof.
  apply (healthcheck_always_ok (fun _ => ret tt) disconnected
           (Some "http://localhost:3000") [] eq_refl).
Defined.

(** ** Every failure is answered *)

(** X2: The category, second cases, reply and search handlers never let a
    failure leave: for every behaviour of the collaborators and every
    request (a rejected call, a result that is [undefined], a candidate
    that is not an object), the run ends normally with a response that is
    either a success or a one-field [error] envelope with status 400 or
    above. *)
Theorem guarded_handlers_always_settle (up : upstream) (req : request) :
  settles (run (categories up req)) /\
  settles (run (cases_v2 up req)) /\
  settles (run (reply up req)) /\
  settles (run (search_handler up req)).
Proof.
  split; [apply categories_settles|].
  split; [apply cases_v2_settles|].
  split; [apply reply_settles | apply search_settles].
Qed.

(** ** What a 500 response carries *)

Lemma fixed_500 (body_ : M unit) (label msg : string) (w0 : world) (r : response) :
  (forall u w', body_ w0 = (Ok u, w') ->
     forall r', sent w' = Some r' -> status r' < 400) ->
  sent (snd (try_catch body_
     (fun err => console_error [VStr label; VStr (err_message err)] ;;
                 res_json 500 (error_body msg)) w0)) = Some r ->
  400 <= status r ->
  r = mkResponse 500 (Json (error_body msg)).
Proof.
  intros Hok. apply (try_catch_cases body_ _ w0
    (fun out => sent (snd out) = Some r -> 400 <= status r ->
                r = mkResponse 500 (Json (error_body msg)))).
  - intros u w' Hb Hs Hge. specialize (Hok u w' Hb r Hs). lia.
  - intros e w' _. step_handler. intros Hs _. injection Hs as <-. reflexivity.
Qed.

(** X3: The 500 responses of the category, reply and search handlers are fixed
    texts: whatever the collaborators threw, the body is the route's
    generic message and nothing of the cause. *)
Theorem failure_cause_not_in_response (up : upstream) (req : request) (r : response) :
  (sent (snd (run (categories up req))) = Some r -> 400 <= status r ->
   r = mkResponse 500 (Json (error_body "Failed to fetch knowledge categories"))) /\
  (sent (snd (run (reply up req))) = Some r -> 500 <= status r ->
   r = mkResponse 500 (Json (error_body "Failed to post reply"))) /\
  (sent (snd (run (search_handler up req))) = Some r -> 500 <= status r ->
   r = mkResponse 500 (Json (error_body "Failed to perform search"))).
Proof.
  split; [|split].
  - unfold categories, run. apply fixed_500.
    intros u w' H r' Hs. last_step H. apply res_json_sent in H.
    rewrite H in Hs. injection Hs as <-. simpl. lia.
  - unfold reply, run. destruct (truthy (field req "commentBody")); simpl.
    + intros Hs Hge. eapply fixed_500; [| exact Hs | lia].
      intros u w' H r' Hs'. last_step H. apply res_json_sent in H.
      rewrite H in Hs'. injection Hs' as <-. simpl. lia.
    + intros Hs Hge. injection Hs as <-. simpl in Hge. lia.
  - unfold search_handler, run. destruct (truthy (field req "searchTerm")); simpl.
    + intros Hs Hge. eapply fixed_500; [| exact Hs | lia].
      intros u w' H r' Hs'.
      apply bind_ok in H; destruct H as (soslQuery & w0 & _ & H).
      apply bind_ok in H; destruct H as (soslResult & w1 & _ & H).
      apply bind_ok in H; destruct H as (arts & w2 & _ & H).
      destruct (no_candidates arts).
      * apply res_json_sent in H. rewrite H in Hs'. injection Hs' as <-. simpl. lia.
      * last_step H. apply res_json_sent in H.
        rewrite H in Hs'. injection Hs' as <-. simpl. lia.
    + intros Hs Hge. injection Hs as <-. simpl in Hge. lia.
Qed.

Lemma failure_cause_not_in_response_witness :
  let req := post_request ["api"; "cases"; "500x"; "reply"] [("caseId", "500x")]
               [("commentBody", VStr "thanks")] in
  let r := mkResponse 500 (Json (error_body "Failed to post reply")) in
  sent (snd (run (reply failing req))) = Some r /\
  r = mkResponse 500 (Json (error_body "Failed to post reply")).
Proof.
  intros req r. split; [reflexivity|].
  apply (proj1 (proj2 (failure_cause_not_in_response failing req r)));
    [reflexivity | simpl; lia].
Defined.

(** ** Categories *)

Lemma categories_resolved (up : upstream) (req : request)
    (group : list (string * jsval)) (others : list jsval) (tree : jsval) :
  getDataCategoryGroups up ["Knowledge"] = Resolved (VArr (VObj group :: others)) ->
  getCategoryTree up (lookup "name" group) 4 = Resolved tree ->
  run (categories up req) =
  (Ok tt,
   mkWorld [CrmGetDataCategoryGroups ["Knowledge"];
            CrmGetCategoryTree (lookup "name" group) 4] []
           (Some (mkResponse 200 (Json tree)))).
Proof.
  intros Hg Ht. unfold categories. step_handler. rewrite Hg. simpl. rewrite Ht.
  reflexivity.
Qed.

(** X4: The category tree is fetched for the first group the CRM lists, by its
    [name] and to depth 4; the other groups are not looked at, and the tree
    is relayed as received. *)
Theorem categories_uses_first_group
    (up : upstream) (req : request)
    (group : list (string * jsval)) (others : list jsval) (tree : jsval) :
  getDataCategoryGroups up ["Knowledge"] = Resolved (VArr (VObj group :: others)) ->
  getCategoryTree up (lookup "name" group) 4 = Resolved tree ->
  calls (snd (run (categories up req))) =
    [CrmGetDataCategoryGroups ["Knowledge"]; CrmGetCategoryTree (lookup "name" group) 4] /\
  sent (snd (run (categories up req))) = Some (mkResponse 200 (Json tree)) /\
  logs (snd (run (categories up req))) = [].
Proof.
  intros Hg Ht. rewrite (categories_resolved up req group others tree Hg Ht).
  repeat split.
Qed.

Lemma categories_uses_first_group_witness :
  calls (snd (run (categories healthy (get_request ["api"; "knowledge"; "categories"] [])))) =
  [CrmGetDataCategoryGroups ["Knowledge"]; CrmGetCategoryTree (VStr "Knowledge") 4].
Proof.
  apply (categories_uses_first_group healthy
           (get_request ["api"; "knowledge"; "categories"] [])
           [("name", VStr "Knowledge")] [] (VObj [("topCategories", VArr [])])
           eq_refl eq_refl).
Defined.

(** X5: When the CRM lists no category group, reading the first group's name
    throws: the tree is never requested, the TypeError is logged and the
    answer is the 500 envelope. *)
Theorem categories_without_groups (up : upstream) (req : request) :
  getDataCategoryGroups up ["Knowledge"] = Resolved (VArr []) ->
  run (categories up req) =
  (Ok tt,
   mkWorld [CrmGetDataCategoryGroups ["Knowledge"]]
           [[VStr "Error fetching knowledge categories:";
             VStr "Cannot read properties of undefined (reading 'name')"]]
           (Some (mkResponse 500 (Json (error_body "Failed to fetch knowledge categories"))))).
Proof. intros Hg. unfold categories. step_handler. rewrite Hg. reflexivity. Qed.

Lemma categories_without_groups_witness :
  sent (snd (run (categories no_groups (get_request ["api"; "knowledge"; "categories"] [])))) =
  Some (mkResponse 500 (Json (error_body "Failed to fetch knowledge categories"))).
Proof.
  rewrite (categories_without_groups no_groups
             (get_request ["api"; "knowledge"; "categories"] []) eq_refl).
  reflexivity.
Defined.

(** ** Search: failures and call discipline *)




Lemma map_m_article_context_throws (items : list jsval) (w : world) :
  In VNull items \/ In VUndef items ->
  exists e, map_m article_context items w = (Throw e, w).
Proof.
  induction items as [|x r IH]; intros Hin; [destruct Hin as [[]|[]]|].
  assert (Hrest : (x = VNull \/ x = VUndef) \/ (In VNull r \/ In VUndef r)).
  { destruct Hin as [[E|H]|[E|H]]; auto. }
  simpl. unfold bind.
  destruct Hrest as [[->| ->]|Hr]; try (eexists; reflexivity).
  destruct (IH Hr) as (e & He).
  pose proof (article_context_state x w) as Hw.
  destruct (article_context x w) as [[y|e'] w1]; simpl in Hw; subst w1.
  - rewrite He. exists e. reflexivity.
  - exists e'. reflexivity.
Qed.

(** The search handler on a term that does not convert to a string: the
    TypeError is thrown inside the [try], before any call. *)
Lemma search_unconvertible_term (up : upstream) (req : request) :
  truthy (field req "searchTerm") = true ->
  ToString (field req "searchTerm") = None ->
  run (search_handler up req) =
  (Ok tt,
   mkWorld []
           [[VStr "Error in semantic search:";
             VStr "Cannot convert object to primitive value"]]
           (Some (mkResponse 500 (Json (error_body "Failed to perform search"))))).
Proof.
  intros Ht Hc. unfold search_handler, run. rewrite Ht. change (negb true) with false.
  cbv iota.
  unfold try_catch. unfold bind at 1. rewrite eval_search_sosl, Hc. reflexivity.
Qed.

Lemma search_convertible_term (up : upstream) (req : request) (s0 : string) :
  truthy (field req "searchTerm") = true ->
  ToString (field req "searchTerm") = Some s0 ->
  run (search_handler up req) =
  try_catch
    (soslResult <- upstream_call (CrmSearch (search_sosl (field req "searchTerm")))
                                 (search up (search_sosl (field req "searchTerm"))) ;;
     articles_ <- get_prop soslResult "searchRecords" ;;
     if no_candidates articles_ then
       res_json 200 (VObj [("answer", VStr no_articles_answer); ("sources", VArr [])])
     else
       parts <- array_map article_context articles_ ;;
       text <- upstream_call
                 (LlmGenerateContent
                    (search_prompt (join context_separator parts) (field req "searchTerm")))
                 (generateContent up
                    (search_prompt (join context_separator parts) (field req "searchTerm"))) ;;
       res_json 200 (VObj [("answer", text); ("sources", articles_)]))
    (fun err =>
       console_error [VStr "Error in semantic search:"; VStr (err_message err)] ;;
       res_json 500 (error_body "Failed to perform search"))
    init.
Proof.
  intros Ht Hc. unfold search_handler, run. rewrite Ht. change (negb true) with false.
  cbv iota.
  unfold try_catch. unfold bind at 1. rewrite eval_search_sosl, Hc. reflexivity.
Qed.

(** X7: A search makes at most two calls, the CRM search and then the language
    model, each at most once and in that order; and the model is called
    only when the CRM answered with an object whose [searchRecords] is a
    non-empty array. *)
Theorem search_call_discipline (up : upstream) (req : request) :
  let q := search_sosl (field req "searchTerm") in
  let made := calls (snd (run (search_handler up req))) in
  (made = [] \/ made = [CrmSearch q] \/
   exists prompt, made = [CrmSearch q; LlmGenerateContent prompt]) /\
  (existsb is_llm_call made = true ->
   exists fields first rest,
     search up q = Resolved (VObj fields) /\
     lookup "searchRecords" fields = VArr (first :: rest)).
Proof.
  intros q made. subst q made.
  destruct (truthy (field req "searchTerm")) eqn:Ht;
    [|unfold search_handler; rewrite Ht; simpl;
      split; [left; reflexivity | discriminate]].
  destruct (ToString (field req "searchTerm")) as [s0|] eqn:Hc;
    [|rewrite (search_unconvertible_term up req Ht Hc); simpl;
      split; [left; reflexivity | discriminate]].
  rewrite (search_convertible_term up req s0 Ht Hc).
  step_handler.
  destruct (search up _) as [v|e] eqn:Es; simpl;
    [|split; [right; left; reflexivity | discriminate]].
  destruct v as [| | | | |fields]; simpl;
    try (split; [right; left; reflexivity | discriminate]).
  destruct (no_candidates (lookup "searchRecords" fields)) eqn:En;
    [split; [right; left; reflexivity | discriminate]|].
  destruct (lookup "searchRecords" fields) as [| | | |items|fs] eqn:El;
    try discriminate En;
    try (simpl; split; [right; left; reflexivity | discriminate]).
  destruct items as [|first rest]; [discriminate En|].
  match goal with |- context [array_map ?f ?a ?w] =>
    pose proof (array_map_state a w) as Hs;
    destruct (array_map f a w) as [[parts|e] w1]
  end; simpl in Hs; subst w1; simpl;
    [|split; [right; left; reflexivity | discriminate]].
  split.
  - right; right. eexists. destruct (generateContent up _); reflexivity.
  - intros _. exists fields, first, rest. split; [reflexivity | exact El].
Qed.

Lemma search_call_discipline_witness :
  exists fields first rest,
    search healthy (search_sosl (VStr "password")) = Resolved (VObj fields) /\
    lookup "searchRecords" fields = VArr (first :: rest).
Proof.
  apply (proj2 (search_call_discipline healthy
           (post_request ["api"; "search"] [] [("searchTerm", VStr "password")]))).
  reflexivity.
Defined.

(** X8: For a search term that is a non-empty string, a candidate that is
    [null] or [undefined] makes the search fail before the language model
    is reached: the answer is the 500 envelope and the CRM search is the
    only call. *)
Theorem search_null_candidate_fails
    (up : upstream) (req : request) (term : string)
    (fields : list (string * jsval)) (items : list jsval) :
  field req "searchTerm" = VStr term ->
  term <> "" ->
  search up (search_sosl (VStr term)) = Resolved (VObj fields) ->
  lookup "searchRecords" fields = VArr items ->
  In VNull items \/ In VUndef items ->
  calls (snd (run (search_handler up req))) = [CrmSearch (search_sosl (VStr term))] /\
  sent (snd (run (search_handler up req))) =
    Some (mkResponse 500 (Json (error_body "Failed to perform search"))).
Proof.
  intros Hf Hne Hs Hrec Hin. rewrite (search_handler_string up req term Hf Hne).
  step_handler. rewrite Hs. simpl. rewrite Hrec.
  assert (Hno : no_candidates (VArr items) = false).
  { destruct items; [destruct Hin as [[]|[]] | reflexivity]. }
  rewrite Hno. unfold array_map.
  match goal with |- context [map_m article_context items ?w] =>
    destruct (map_m_article_context_throws items w Hin) as (e & ->)
  end.
  split; reflexivity.
Qed.

Lemma search_null_candidate_fails_witness :
  sent (snd (run (search_handler null_candidate
     (post_request ["api"; "search"] [] [("searchTerm", VStr "password")])))) =
  Some (mkResponse 500 (Json (error_body "Failed to perform search"))).
Proof.
  assert (Hne : "password" <> "") by discriminate.
  apply (search_null_candidate_fails null_candidate
           (post_request ["api"; "search"] [] [("searchTerm", VStr "password")])
           "password"
           [("searchRecords", VArr [VObj reset_password; VNull])]
           [VObj reset_password; VNull] eq_refl Hne eq_refl eq_refl).
  left. right. left. reflexivity.
Defined.

(** X9: The no-candidate answer is also given when the CRM's result has no
    [searchRecords] at all, or has it [null]. *)
Theorem search_missing_records_is_no_candidates
    (up : upstream) (req : request) (term : string) (fields : list (string * jsval)) :
  field req "searchTerm" = VStr term ->
  term <> "" ->
  search up (search_sosl (VStr term)) = Resolved (VObj fields) ->
  lookup "searchRecords" fields = VUndef \/ lookup "searchRecords" fields = VNull ->
  run (search_handler up req) =
  (Ok tt,
   mkWorld [CrmSearch (search_sosl (VStr term))] []
     (Some (mkResponse 200
        (Json (VObj [("answer", VStr "I couldn't find any articles related to your search.");
                     ("sources", VArr [])]))))).
Proof.
  intros Hf Hne Hs Hrec.
  apply (search_resolved_empty up req term fields Hf Hne Hs).
  destruct Hrec as [-> | ->]; reflexivity.
Qed.

Lemma search_missing_records_is_no_candidates_witness :
  calls (snd (run (search_handler no_records
     (post_request ["api"; "search"] [] [("searchTerm", VStr "password")])))) =
  [CrmSearch (search_sosl (VStr "password"))].
Proof.
  assert (Hne : "password" <> "") by discriminate.
  rewrite (search_missing_records_is_no_candidates no_records
             (post_request ["api"; "search"] [] [("searchTerm", VStr "password")])
             "password" [] eq_refl Hne eq_refl (or_introl eq_refl)).
  reflexivity.
Defined.

(** ** Routing *)

Lemma cases_segments_inversion (path : list string) (ps : list (string * string)) :
  match_segments cases_pattern path = Some ps ->
  exists a b e,
    path = [a; b; e] /\ lowercase a = "api" /\ lowercase b = "cases" /\
    (e =? "") = false /\ ps = [("email", e)].
Proof.
  unfold cases_pattern. intros H.
  destruct path as [|a path]; cbn [match_segments] in H; [discriminate|].
  destruct (literal_matches "api" a) eqn:Ha; [|discriminate].
  destruct path as [|b path]; cbn [match_segments] in H; [discriminate|].
  destruct (literal_matches "cases" b) eqn:Hb; [|discriminate].
  destruct path as [|e path]; cbn [match_segments] in H; [discriminate|].
  destruct (e =? "") eqn:Ee; [discriminate|].
  destruct path; cbn [match_segments] in H; [|discriminate]. injection H as <-.
  apply String.eqb_eq in Ha, Hb.
  exists a, b, e. repeat split; try reflexivity; try exact Ee; symmetry; assumption.
Qed.

(** X11: The second registration of GET /api/cases/:email is dead: every GET
    whose path matches the pattern is handled by the first registration. *)
Theorem second_cases_registration_unreachable
    (on_error : js_error -> M unit) (req : request) (ps : list (string * string)) :
  req_method req = GET ->
  match_pattern cases_pattern (req_path req) = Some ps ->
  dispatch (routes on_error) req = Some (cases_v1, with_params req ps).
Proof.
  intros Hm Hp. unfold match_pattern in Hp.
  destruct (cases_segments_inversion _ _ Hp) as (a & b & e & Epath & Ha & Hb & Ee & ->).
  unfold dispatch, routes, match_pattern, cases_pattern.
  cbn [route_method route_pattern route_handler].
  rewrite Hm, Epath.
  cbn [handles_method match_segments]. unfold literal_matches.
  rewrite Ha, Hb, Ee. reflexivity.
Qed.

Lemma second_cases_registration_unreachable_witness :
  dispatch (routes (fun _ => ret tt)) (get_request ["api"; "cases"; "a@b.co"] []) =
  Some (cases_v1, mkRequest GET ["api"; "cases"; "a@b.co"] None [("email", "a@b.co")] []).
Proof.
  apply (second_cases_registration_unreachable (fun _ => ret tt)
           (get_request ["api"; "cases"; "a@b.co"] []) [("email", "a@b.co")]
           eq_refl eq_refl).
Defined.

(** ** The CORS gate, continued *)

(** X12: The preview test is a substring test: any origin that has vercel.app
    anywhere in it is accepted, whatever stands before or after (a host such
    as vercel.app.example.net included). *)
Theorem cors_accepts_any_origin_containing_vercel_app (before after : string) :
  cors_origin (Some (before ++ "vercel.app" ++ after)) = (None, true).
Proof.
  unfold cors_origin.
  destruct (String.eqb_spec (before ++ "vercel.app" ++ after) "") as [E|_];
    [reflexivity|].
  rewrite (includes_middle "vercel.app" before after). reflexivity.
Qed.

Lemma cors_error_iff_origin_accepted (origin : option string) :
  (origin_accepted origin = true -> fst (cors_origin origin) = None) /\
  (fst (cors_origin origin) = None -> origin_accepted origin = true).
Proof.
  unfold origin_accepted, cors_origin. destruct origin as [o|].
  - destruct (o =? ""); [split; reflexivity|].
    destruct (includes "vercel.app" o); [split; reflexivity|].
    destruct (indexOf o allowedOrigins); [split; reflexivity|].
    split; discriminate.
  - split; reflexivity.
Qed.

(** X13: The two arguments the gate passes to the callback agree: an error is
    given exactly when the origin is refused. *)
Theorem cors_error_iff_refused (origin : option string) :
  (fst (cors_origin origin) = None <-> origin_accepted origin = true) /\
  (origin_accepted origin = false ->
   fst (cors_origin origin) = Some (mkError "Error" cors_message)).
Proof.
  unfold origin_accepted, cors_origin. destruct origin as [o|].
  - destruct (o =? ""); [split; [split; reflexivity | discriminate]|].
    destruct (includes "vercel.app" o); [split; [split; reflexivity | discriminate]|].
    destruct (indexOf o allowedOrigins); [split; [split; reflexivity | discriminate]|].
    split; [split; discriminate | reflexivity].
  - split; [split; reflexivity | discriminate].
Qed.

Lemma cors_error_iff_refused_witness :
  fst (cors_origin (Some "https://evil.example")) = Some (mkError "Error" cors_message).
Proof. apply (proj2 (cors_error_iff_refused (Some "https://evil.example"))). reflexivity. Defined.

(** ** Cases *)

Lemma app_handle_accepted (on_error : js_error -> M unit) (up : upstream) (req : request) :
  origin_accepted (req_origin req) = true ->
  app_handle on_error up req =
  match dispatch (routes on_error) req with
  | None => NoRoute
  | Some (h, req') => let (r, w) := run (h up req') in Handled r w
  end.
Proof.
  intros Hacc. unfold app_handle.
  destruct (cors_error_iff_origin_accepted (req_origin req)) as [H _].
  specialize (H Hacc).
  destruct (cors_origin (req_origin req)) as [[e|] allow]; [discriminate H | reflexivity].
Qed.

Lemma cases_v1_outcomes (up : upstream) (req : request) :
  (fst (run (cases_v1 up req)) = Ok tt /\
   exists r, sent (snd (run (cases_v1 up req))) = Some r /\
             (status r = 401 \/ status r = 200)) \/
  (run (cases_v1 up req) =
   (Throw (ReferenceError "urlName"),
    mkWorld [CrmQuery (cases_v1_soql (param req "email"))] [] None)).
Proof.
  unfold cases_v1. destruct (truthy (accessToken up)); step_handler.
  - destruct (query up _) as [v|e]; [destruct v|]; simpl;
      try (right; reflexivity);
      left; (split; [reflexivity|]); eexists; (split; [reflexivity|]); right; reflexivity.
  - left. split; [reflexivity|]. eexists. split; [reflexivity|]. left; reflexivity.
Qed.

(** X14: The first GET /api/cases/:email handler never answers with an error
    envelope for a failure: either it ends with 401 or 200, or (the query
    was rejected, or resolved with [undefined] or [null]) a ReferenceError
    leaves it after the one query, with nothing logged and no response. *)
Theorem cases_v1_answers_or_escapes (up : upstream) (req : request) :
  (fst (run (cases_v1 up req)) = Ok tt /\
   exists r, sent (snd (run (cases_v1 up req))) = Some r /\
             (status r = 401 \/ status r = 200)) \/
  (fst (run (cases_v1 up req)) = Throw (mkError "ReferenceError" "urlName is not defined") /\
   calls (snd (run (cases_v1 up req))) = [CrmQuery (cases_v1_soql (param req "email"))] /\
   logs (snd (run (cases_v1 up req))) = [] /\
   sent (snd (run (cases_v1 up req))) = None).
Proof.
  destruct (cases_v1_outcomes up req) as [H|H]; [left; exact H|].
  right. rewrite H. repeat split.
Qed.

(** X15: GET /api/cases/<email> through the gate and the router: with a session
    and a query that resolves, the answer is 200 with the [records] of the
    result as received (an empty list included), after exactly one query,
    the first handler's. *)
Theorem cases_route_relays_records
    (on_error : js_error -> M unit) (up : upstream)
    (origin : option string) (email : string) (body_ fields : list (string * jsval)) :
  origin_accepted origin = true ->
  email <> "" ->
  truthy (accessToken up) = true ->
  query up (cases_v1_soql (VStr email)) = Resolved (VObj fields) ->
  app_handle on_error up (mkRequest GET ["api"; "cases"; email] origin [] body_) =
  Handled (Ok tt)
    (mkWorld [CrmQuery (cases_v1_soql (VStr email))] []
             (Some (mkResponse 200 (Json (lookup "records" fields))))).
Proof.
  intros Hacc Hne Ht Hq.
  rewrite (app_handle_accepted on_error up
             (mkRequest GET ["api"; "cases"; email] origin [] body_) Hacc).
  rewrite (first_cases_registration_handles on_error email origin body_ Hne).
  rewrite (cases_v1_resolved up _ fields Ht); [reflexivity|].
  exact Hq.
Qed.

Lemma cases_route_relays_records_witness :
  app_handle (fun _ => ret tt) healthy (get_request ["api"; "cases"; "a@b.co"] []) =
  Handled (Ok tt)
    (mkWorld [CrmQuery (cases_v1_soql (VStr "a@b.co"))] []
             (Some (mkResponse 200 (Json (VArr []))))).
Proof.
  assert (Hne : "a@b.co" <> "") by discriminate.
  apply (cases_route_relays_records (fun _ => ret tt) healthy None "a@b.co" []
           [("records", VArr [])] eq_refl Hne eq_refl eq_refl).
Defined.

(** X16: The second cases handler, when its query is rejected, answers 500 with
    a message that repeats the email as received, and logs the email and
    the cause. *)
Theorem cases_v2_failure_echoes_email (up : upstream) (req : request)
    (email : string) (e : js_error) :
  param req "email" = VStr email ->
  email <> "" ->
  query up (cases_v2_soql (VStr email)) = Rejected e ->
  run (cases_v2 up req) =
  (Ok tt,
   mkWorld [CrmQuery (cases_v2_soql (VStr email))]
           [[VStr "Error fetching cases for email:"; VStr email; VStr (err_message e)]]
           (Some (mkResponse 500
              (Json (error_body ("Failed to fetch cases for email " ++ email)))))).
Proof.
  intros Hp Hne Hq.
  assert (Ht : truthy (param req "email") = true)
    by (rewrite Hp; apply truthy_string, Hne).
  rewrite <- Hp in Hq. rewrite (cases_v2_rejected up req e Ht Hq), Hp. reflexivity.
Qed.

Lemma cases_v2_failure_echoes_email_witness :
  sent (snd (run (cases_v2 failing (get_request ["api"; "cases"; "a@b.co"] [("email", "a@b.co")])))) =
  Some (mkResponse 500 (Json (error_body "Failed to fetch cases for email a@b.co"))).
Proof.
  assert (Hne : "a@b.co" <> "") by discriminate.
  rewrite (cases_v2_failure_echoes_email failing
             (get_request ["api"; "cases"; "a@b.co"] [("email", "a@b.co")])
             "a@b.co" upstream_error eq_refl Hne eq_refl).
  reflexivity.
Defined.

(** ** Case replies, continued *)

(** X17: [IsPublished] is [isPublic || false]: the value of [isPublic] itself
    when it is truthy (a non-empty string such as 'false' included, which is
    forwarded to the CRM as that string), and [false] when it is absent,
    [null], [false] or the empty string. *)
Theorem reply_published_flag (up : upstream) (req : request) :
  truthy (field req "commentBody") = true ->
  exists published,
    calls (snd (run (reply up req))) =
      [CrmCreate "CaseComment"
         (VObj [("ParentId", param req "caseId");
                ("CommentBody", field req "commentBody");
                ("IsPublished", published)])] /\
    (truthy (field req "isPublic") = true -> published = field req "isPublic") /\
    (truthy (field req "isPublic") = false -> published = VBool false).
Proof.
  intros Ht. exists (js_or (field req "isPublic") (VBool false)).
  split; [apply (reply_calls up req Ht)|].
  unfold js_or. split; intros H; rewrite H; reflexivity.
Qed.

Lemma reply_published_flag_witness :
  exists published,
    calls (snd (run (reply healthy
       (post_request ["api"; "cases"; "500x"; "reply"] [("caseId", "500x")]
          [("commentBody", VStr "thanks"); ("isPublic", VStr "false")])))) =
    [CrmCreate "CaseComment"
       (VObj [("ParentId", VStr "500x"); ("CommentBody", VStr "thanks");
              ("IsPublished", published)])] /\
    published = VStr "false".
Proof.
  destruct (reply_published_flag healthy
     (post_request ["api"; "cases"; "500x"; "reply"] [("caseId", "500x")]
        [("commentBody", VStr "thanks"); ("isPublic", VStr "false")]) eq_refl)
    as (published & Hc & Ht & _).
  exists published. split; [exact Hc | apply Ht; reflexivity].
Defined.

(** * The presentation client *)

(** ** SupportTab *)

Lemma fetchCategories_shape (ax : axios) (st : support_tab) :
  support_shape st -> support_shape (ui_state (fetchCategories ax st)).
Proof.
  intros [Hc Ha]. unfold fetchCategories.
  destruct (ax _) as [data|]; [|split; assumption].
  destruct (truthy data && isArray (own data "topCategories")) eqn:E;
    [|split; assumption].
  apply andb_true_iff in E. destruct E as [_ E].
  split; [|exact Ha]. simpl.
  destruct data as [| | | | |fields]; simpl in E; try discriminate.
  destruct (lookup "topCategories" fields) as [| | | |items|] eqn:El; try discriminate.
  exists fields, items. split; [reflexivity | exact El].
Qed.

Lemma handleCategorySelect_shape (ax : axios) (category : jsval) (st : support_tab) :
  support_shape st -> support_shape (ui_state (handleCategorySelect ax category st)).
Proof.
  intros [Hc Ha]. unfold handleCategorySelect.
  destruct (nullish category); [split; [exact Hc | exists []; reflexivity]|].
  destruct (ax _) as [data|]; simpl.
  - split; [exact Hc|]. destruct data; simpl; eauto.
  - split; [exact Hc | exists []; reflexivity].
Qed.

Lemma handleArticleSelect_shape (ax : axios) (u : jsval) (st : support_tab) :
  support_shape st -> support_shape (ui_state (handleArticleSelect ax u st)).
Proof.
  intros [Hc Ha]. unfold handleArticleSelect.
  destruct (ax _) as [data|]; split; assumption.
Qed.

Lemma support_step_shape (st : support_tab) (step : axios * support_action) :
  support_shape st -> support_shape (support_step st step).
Proof.
  destruct step as [ax [|c|u]]; simpl.
  - apply fetchCategories_shape.
  - apply handleCategorySelect_shape.
  - apply handleArticleSelect_shape.
Qed.

Lemma support_fold_shape (steps : list (axios * support_action)) (st : support_tab) :
  support_shape st -> support_shape (fold_left support_step steps st).
Proof.
  revert st. induction steps as [|step rest IH]; intros st H; [exact H|].
  simpl. apply IH, support_step_shape, H.
Qed.

(** X18: Whatever the server answers and in whatever order the handlers of a
    SupportTab run, [categories] keeps an array [topCategories] and
    [articles] stays an array: a response of another shape is replaced by an
    error message or by the empty list, never stored. *)
Theorem support_tab_keeps_array_shape (steps : list (axios * support_action)) :
  support_shape (support_run steps).
Proof.
  apply support_fold_shape. split.
  - exists [("topCategories", VArr [])], []. split; reflexivity.
  - exists []. reflexivity.
Qed.

Lemma template_nonempty_prefix (c : ascii) (p : string) (rest : list tpart) :
  template (TLit (String c p) :: rest) <> "".
Proof. simpl. discriminate. Qed.

(** X19: An error shown by a SupportTab stays: selecting a category or an
    article never clears [error] (only [fetchCategories], on mount, resets
    it). *)
Theorem support_tab_error_is_sticky
    (ax : axios) (action : support_action) (st : support_tab) :
  action <> FetchCategories ->
  st_error st <> "" ->
  st_error (support_step st (ax, action)) <> "".
Proof.
  intros Ha He. destruct action as [|c|u]; [contradiction| |]; simpl.
  - unfold handleCategorySelect. destruct (nullish c); [exact He|].
    destruct (ax _); simpl; [exact He | discriminate].
  - unfold handleArticleSelect. destruct (ax _); simpl; [exact He | discriminate].
Qed.

Lemma support_tab_error_is_sticky_witness :
  st_error (support_step
              (mkSupport (VObj [("topCategories", VArr [])]) (VArr []) VNull false
                         categories_error (VStr "All Articles"))
              (fun _ => HttpOk (VArr []), SelectArticle (VStr "reset-password"))) <> "".
Proof.
  apply support_tab_error_is_sticky; discriminate.
Defined.

(** ** SearchTab *)

(** X20: [handleSearch] sends nothing and changes nothing when the term trims to
    the empty string.  Otherwise it sends exactly one request, a POST of
    [{searchTerm}] (the term as typed, untrimmed) to /api/search, and
    settles with [isLoading] false and either the response data as
    [results] and no error, or no results and the error message. *)
Theorem handleSearch_outcomes (trim : string -> string) (ax : axios) (st : search_tab) :
  let out := handleSearch trim ax st in
  let req := mkHttp POST "/api/search" (VObj [("searchTerm", VStr (sr_searchTerm st))]) in
  (trim (sr_searchTerm st) = "" -> out = mkUi st [] None) /\
  (trim (sr_searchTerm st) <> "" ->
   ui_requests out = [req] /\ ui_thrown out = None /\
   sr_isLoading (ui_state out) = false /\
   sr_searchTerm (ui_state out) = sr_searchTerm st /\
   ((exists data, ax req = HttpOk data /\
       sr_results (ui_state out) = data /\ sr_error (ui_state out) = "") \/
    (ax req = HttpError /\
       sr_results (ui_state out) = VNull /\ sr_error (ui_state out) = search_error))).
Proof.
  intros out req. subst out. unfold handleSearch. split.
  - intros ->. reflexivity.
  - intros Hne. rewrite (truthy_string _ Hne). simpl negb. cbv iota.
    change (template [TSub (VStr API_BASE_URL); TLit "/search"]) with "/api/search".
    fold req. destruct (ax req) as [data|] eqn:E; simpl.
    + repeat split. left. exists data. repeat split.
    + repeat split. right. repeat split.
Qed.

Lemma handleSearch_outcomes_witness :
  handleSearch (fun s => s) (fun _ => HttpError) (mkSearch "" VNull false "") =
  mkUi (mkSearch "" VNull false "") [] None /\
  ui_requests (handleSearch (fun s => s) (fun _ => HttpError) (mkSearch "vpn" VNull false "")) =
  [mkHttp POST "/api/search" (VObj [("searchTerm", VStr "vpn")])].
Proof.
  split.
  - apply (proj1 (handleSearch_outcomes (fun s => s) (fun _ => HttpError)
                    (mkSearch "" VNull false ""))). reflexivity.
  - apply (proj2 (handleSearch_outcomes (fun s => s) (fun _ => HttpError)
                    (mkSearch "vpn" VNull false ""))). discriminate.
Defined.

(** X21: Client and proxy together: a search request that [handleSearch] sends
    passes the proxy's validation (never a 400 for an empty term), and the
    term reaches the CRM search query as typed, untrimmed. *)
Theorem client_search_passes_validation
    (trim : string -> string) (ax : axios) (st : search_tab)
    (up : upstream) (r : http_request) :
  trim "" = "" ->
  In r (ui_requests (handleSearch trim ax st)) ->
  exists fields,
    http_body r = VObj fields /\ http_method r = POST /\ http_url r = "/api/search" /\
    hd_error (calls (snd (run (search_handler up (post_request ["api"; "search"] [] fields))))) =
    Some (CrmSearch (search_sosl (VStr (sr_searchTerm st)))).
Proof.
  intros Htrim Hin. unfold handleSearch in Hin.
  destruct (String.eqb_spec (trim (sr_searchTerm st)) "") as [E|Hne].
  - rewrite E in Hin. simpl in Hin. destruct Hin.
  - rewrite (truthy_string _ Hne) in Hin. simpl negb in Hin. cbv iota in Hin.
    assert (Hterm : sr_searchTerm st <> "").
    { intros E. rewrite E in Hne. contradiction. }
    assert (Hr : r = mkHttp POST "/api/search"
                       (VObj [("searchTerm", VStr (sr_searchTerm st))])).
    { destruct (ax _); simpl in Hin; destruct Hin as [<-|[]]; reflexivity. }
    subst r. exists [("searchTerm", VStr (sr_searchTerm st))].
    repeat split.
    apply (search_first_call up
             (post_request ["api"; "search"] [] [("searchTerm", VStr (sr_searchTerm st))])
             (sr_searchTerm st) eq_refl Hterm).
Qed.

Lemma client_search_passes_validation_witness :
  exists fields,
    VObj [("searchTerm", VStr " vpn ")] = VObj fields /\
    hd_error (calls (snd (run (search_handler healthy
                (post_request ["api"; "search"] [] fields))))) =
    Some (CrmSearch (search_sosl (VStr " vpn "))).
Proof.
  destruct (client_search_passes_validation (fun s => s) (fun _ => HttpError)
              (mkSearch " vpn " VNull false "") healthy
              (mkHttp POST "/api/search" (VObj [("searchTerm", VStr " vpn ")]))
              eq_refl (or_introl eq_refl)) as (fields & Hb & _ & _ & Hc).
  exists fields. split; [exact Hb | exact Hc].
Defined.

(** ** CaseItem and CaseList *)

(** X22: Client and proxy together: whatever reply [handleReply] posts, the
    proxy's reply handler accepts it (the body is never empty) and creates
    the comment with [IsPublished] true and the text as typed. *)
Theorem client_reply_is_published
    (trim : string -> string) (ax : axios) (caseData : jsval) (st : case_item)
    (up : upstream) (r : http_request)
    (path : list string) (params : list (string * string)) :
  trim "" = "" ->
  In r (ui_requests (handleReply trim ax caseData st)) ->
  exists fields,
    http_body r = VObj fields /\ http_method r = POST /\
    http_url r = "/api/cases/" ++ to_string (own caseData "Id") ++ "/reply" /\
    calls (snd (run (reply up (post_request path params fields)))) =
    [CrmCreate "CaseComment"
       (VObj [("ParentId", param_lookup "caseId" params);
              ("CommentBody", VStr (ci_replyText st));
              ("IsPublished", VBool true)])].
Proof.
  intros Htrim Hin. unfold handleReply in Hin.
  destruct (String.eqb_spec (trim (ci_replyText st)) "") as [E|Hne].
  - rewrite E in Hin. simpl in Hin. destruct Hin.
  - rewrite (truthy_string _ Hne) in Hin. simpl negb in Hin. cbv iota in Hin.
    assert (Htext : ci_replyText st <> "").
    { intros E. rewrite E in Hne. contradiction. }
    destruct (nullish caseData); [destruct Hin|].
    assert (Hr : r = mkHttp POST
                       ("/api/cases/" ++ to_string (own caseData "Id") ++ "/reply")
                       (VObj (reply_body (ci_replyText st)))).
    { destruct (ax _); simpl in Hin; destruct Hin as [<-|[]]; reflexivity. }
    subst r. exists (reply_body (ci_replyText st)). repeat split.
    rewrite reply_calls; [reflexivity|].
    apply (truthy_string _ Htext).
Qed.

Lemma client_reply_is_published_witness :
  exists fields,
    VObj (reply_body "thanks") = VObj fields /\
    calls (snd (run (reply healthy
       (post_request ["api"; "cases"; "500x"; "reply"] [("caseId", "500x")] fields)))) =
    [CrmCreate "CaseComment"
       (VObj [("ParentId", VStr "500x"); ("CommentBody", VStr "thanks");
              ("IsPublished", VBool true)])].
Proof.
  destruct (client_reply_is_published (fun s => s) (fun _ => HttpOk VNull)
              (VObj [("Id", VStr "500x")]) (mkCaseItem true "thanks" false) healthy
              (mkHttp POST "/api/cases/500x/reply" (VObj (reply_body "thanks")))
              ["api"; "cases"; "500x"; "reply"] [("caseId", "500x")]
              eq_refl (or_introl eq_refl)) as (fields & Hb & _ & _ & Hc).
  exists fields. split; [exact Hb | exact Hc].
Defined.

(** X23: A reply is cleared only when it was sent: after [handleReply] the form
    is closed and emptied if the request succeeded, and otherwise (blank
    text, a failed request) the text and the open form are kept as they
    were; a submitted reply always leaves [isReplying] false, and at most
    one request is made. *)
Theorem handleReply_keeps_unsent_text
    (trim : string -> string) (ax : axios) (caseData : jsval) (st : case_item) :
  let out := handleReply trim ax caseData st in
  ui_thrown out = None /\
  ((exists req data, ui_requests out = [req] /\ ax req = HttpOk data /\
      ui_state out = mkCaseItem false "" false) \/
   ((ui_requests out = [] \/ exists req, ui_requests out = [req] /\ ax req = HttpError) /\
    ci_replyText (ui_state out) = ci_replyText st /\
    ci_showReply (ui_state out) = ci_showReply st /\
    (trim (ci_replyText st) <> "" -> ci_isReplying (ui_state out) = false))).
Proof.
  intros out. subst out. unfold handleReply.
  destruct (String.eqb_spec (trim (ci_replyText st)) "") as [E|Hne].
  - rewrite E. simpl. split; [reflexivity|]. right.
    repeat split; [left; reflexivity | contradiction].
  - rewrite (truthy_string _ Hne). simpl negb. cbv iota.
    destruct (nullish caseData).
    + split; [reflexivity|]. right. repeat split. left; reflexivity.
    + destruct (ax _) as [data|] eqn:E; simpl; (split; [reflexivity|]).
      * left. eexists _, data. repeat split. exact E.
      * right. repeat split. right. eexists. split; [reflexivity | exact E].
Qed.

Lemma handleReply_keeps_unsent_text_witness :
  ci_isReplying (ui_state (handleReply (fun s => s) (fun _ => HttpError)
                             (VObj [("Id", VStr "500x")]) (mkCaseItem true "thanks" true))) =
  false /\
  ci_replyText (ui_state (handleReply (fun s => s) (fun _ => HttpError)
                            (VObj [("Id", VStr "500x")]) (mkCaseItem true "thanks" true))) =
  "thanks".
Proof.
  destruct (handleReply_keeps_unsent_text (fun s => s) (fun _ => HttpError)
              (VObj [("Id", VStr "500x")]) (mkCaseItem true "thanks" true))
    as [_ [(req & data & _ & Hok & _) | (_ & Htext & _ & Hrep)]].
  - discriminate Hok.
  - split; [apply Hrep; discriminate | exact Htext].
Defined.

(** X24: [fetchCases] always asks for the cases of the configured email with one
    GET, stores only an array in [cases] (a response of another shape
    becomes the empty list), and ends with [isLoading] false; the error
    message is set exactly on a failed request. *)
Theorem fetchCases_outcomes (ax : axios) (st : case_list) :
  let out := fetchCases ax st in
  let req := mkHttp GET "/api/cases/lharris@invoca.com" VUndef in
  ui_requests out = [req] /\
  cl_isLoading (ui_state out) = false /\
  (isArray (cl_cases st) = true -> isArray (cl_cases (ui_state out)) = true) /\
  (forall data, ax req = HttpOk data ->
     cl_error (ui_state out) = cl_error st /\
     cl_cases (ui_state out) = if isArray data then data else VArr []) /\
  (ax req = HttpError ->
     cl_error (ui_state out) = "Could not load your open cases." /\
     cl_cases (ui_state out) = cl_cases st).
Proof.
  intros out req. subst out. unfold fetchCases.
  change (includes "@" LOGGED_IN_USER_EMAIL) with true. simpl negb. cbv iota.
  change (template [TSub (VStr API_BASE_URL); TLit "/cases/"; TSub (VStr LOGGED_IN_USER_EMAIL)])
    with "/api/cases/lharris@invoca.com".
  fold req. destruct (ax req) as [data|]; simpl.
  - repeat split.
    + intros _. destruct data; reflexivity.
    + injection H as <-. reflexivity.
    + discriminate.
    + discriminate.
  - repeat split; try discriminate. intros H; exact H.
Qed.

Lemma fetchCases_outcomes_witness :
  cl_cases (ui_state (fetchCases (fun _ => HttpOk (VObj [("error", VStr "x")])) case_list_init)) =
  VArr [].
Proof.
  destruct (fetchCases_outcomes (fun _ => HttpOk (VObj [("error", VStr "x")])) case_list_init)
    as (_ & _ & _ & H & _).
  destruct (H (VObj [("error", VStr "x")]) eq_refl) as [_ Hc]. exact Hc.
Defined.

(** * The article route *)








(** * Examples *)

(** A search term that has no string form: the TypeError is thrown while the
    query is built, inside the [try]; nothing is called and the answer is
    the 500 envelope. *)
Example search_term_with_own_toString :
  run (search_handler healthy
         (post_request ["api"; "search"] []
            [("searchTerm", VObj [("toString", VStr "x")])])) =
  (Ok tt,
   mkWorld []
           [[VStr "Error in semantic search:";
             VStr "Cannot convert object to primitive value"]]
           (Some (mkResponse 500 (Json (error_body "Failed to perform search"))))).
Proof. reflexivity. Qed.

(** Route literals match in any case, one trailing slash is ignored, and a
    HEAD request is served by the GET registration. *)
Example cases_route_any_case_trailing_slash_head :
  dispatch (routes (fun _ => ret tt))
    (mkRequest HEAD ["API"; "Cases"; "a@b.co"; ""] None [] []) =
  Some (cases_v1, mkRequest HEAD ["API"; "Cases"; "a@b.co"; ""] None [("email", "a@b.co")] []).
Proof. reflexivity. Qed.

Example post_route_not_served_for_get :
  dispatch (routes (fun _ => ret tt)) (mkRequest GET ["api"; "search"] None [] []) = None.
Proof. reflexivity. Qed.
